(** * keyword-scanner: the form handler of [static/script.js]

    A shallow embedding of the browser-side script: the submit handler,
    [setLoading], [clearResults], [showError], [displayResults] and
    [escapeHtml], over a small model of the page they act on, followed by
    the properties of the handler stated in the specification. *)

From Stdlib Require Import List ZArith NArith Lia Bool String Ascii.
Import ListNotations.

Set Implicit Arguments.
Set Warnings "-register-all".

(** ** JavaScript strings

    A JavaScript string is a sequence of UTF-16 code units.  The literals
    of the script are all ASCII and are written with [lit]. *)

Definition code_unit := N.
Definition jsstring := list code_unit.

Definition lit (s : string) : jsstring :=
  map N_of_ascii (list_ascii_of_string s).

(** The double quote, which the script writes inside its markup. *)
Definition dq : jsstring := [34%N].

Definition isEmpty (s : jsstring) : bool :=
  match s with [] => true | _ :: _ => false end.

Definition unit_eqb : code_unit -> code_unit -> bool := N.eqb.

Fixpoint jsstring_eqb (a b : jsstring) : bool :=
  match a, b with
  | [], [] => true
  | x :: a', y :: b' => unit_eqb x y && jsstring_eqb a' b'
  | _, _ => false
  end.

Module JS.

(** [s.length] *)
Definition length (s : jsstring) : Z := Z.of_nat (List.length s).

(** White space and line terminators, the code units [trim] strips:
    TAB, LF, VT, FF, CR, SP, NBSP, U+1680, U+2000..U+200A, U+2028,
    U+2029, U+202F, U+205F, U+3000 and U+FEFF. *)
Definition isWhiteSpace (c : code_unit) : bool :=
  ((9 <=? c) && (c <=? 13) || (c =? 32) || (c =? 160) || (c =? 5760)
   || (8192 <=? c) && (c <=? 8202) || (c =? 8232) || (c =? 8233)
   || (c =? 8239) || (c =? 8287) || (c =? 12288) || (c =? 65279))%N.

Fixpoint trimStart (s : jsstring) : jsstring :=
  match s with
  | [] => []
  | c :: s' => if isWhiteSpace c then trimStart s' else s
  end.

Definition trimEnd (s : jsstring) : jsstring := rev (trimStart (rev s)).

(** [s.trim()] *)
Definition trim (s : jsstring) : jsstring := trimEnd (trimStart s).

(** [s.startsWith(p)], used to define [indexOf]. *)
Fixpoint startsWith (p s : jsstring) : bool :=
  match p, s with
  | [], _ => true
  | _ :: _, [] => false
  | x :: p', y :: s' => unit_eqb x y && startsWith p' s'
  end.

Fixpoint indexFrom (p s : jsstring) (pos : Z) : Z :=
  if startsWith p s then pos
  else match s with
       | [] => (-1)%Z
       | _ :: s' => indexFrom p s' (pos + 1)%Z
       end.

(** [s.indexOf(p)]: the least offset at which [p] occurs in [s], [-1]
    when there is none. *)
Definition indexOf (s p : jsstring) : Z := indexFrom p s 0%Z.

(** [s.substring(start, end)], [end] omitted when [None]: both bounds
    are clamped to [0 .. s.length] and swapped when out of order. *)
Definition substring (s : jsstring) (start : Z) (end_ : option Z) : jsstring :=
  let len := length s in
  let clamp x := Z.min (Z.max x 0) len in
  let finalStart := clamp start in
  let finalEnd := match end_ with None => len | Some e => clamp e end in
  let from := Z.min finalStart finalEnd in
  let to := Z.max finalStart finalEnd in
  firstn (Z.to_nat (to - from)) (skipn (Z.to_nat from) s).

Fixpoint digits (u : Decimal.uint) : jsstring :=
  match u with
  | Decimal.Nil => []
  | Decimal.D0 u => 48%N :: digits u
  | Decimal.D1 u => 49%N :: digits u
  | Decimal.D2 u => 50%N :: digits u
  | Decimal.D3 u => 51%N :: digits u
  | Decimal.D4 u => 52%N :: digits u
  | Decimal.D5 u => 53%N :: digits u
  | Decimal.D6 u => 54%N :: digits u
  | Decimal.D7 u => 55%N :: digits u
  | Decimal.D8 u => 56%N :: digits u
  | Decimal.D9 u => 57%N :: digits u
  end.

(** Surrogate code units: U+D800..U+DBFF lead a pair, U+DC00..U+DFFF
    trail one. *)
Definition isLeadSurrogate (c : code_unit) : bool :=
  ((55296 <=? c) && (c <=? 56319))%N.

Definition isTrailSurrogate (c : code_unit) : bool :=
  ((56320 <=? c) && (c <=? 57343))%N.

(** [s.isWellFormed()]: no surrogate stands outside a pair. *)
Fixpoint isWellFormed (s : jsstring) : bool :=
  match s with
  | [] => true
  | c :: rest =>
      if isLeadSurrogate c then
        match rest with
        | d :: rest' => isTrailSurrogate d && isWellFormed rest'
        | [] => false
        end
      else negb (isTrailSurrogate c) && isWellFormed rest
  end.

(** [s.toWellFormed()]: every surrogate outside a pair becomes U+FFFD.
    This is also the conversion a DOM attribute declared [USVString],
    such as [href], applies to the string assigned to it. *)
Fixpoint toWellFormed (s : jsstring) : jsstring :=
  match s with
  | [] => []
  | c :: rest =>
      if isLeadSurrogate c then
        match rest with
        | d :: rest' =>
            if isTrailSurrogate d then c :: d :: toWellFormed rest'
            else 65533%N :: toWellFormed rest
        | [] => [65533%N]
        end
      else if isTrailSurrogate c then 65533%N :: toWellFormed rest
      else c :: toWellFormed rest
  end.

(** The decimal text of a length, as a template literal prints it. *)
Definition natToString (n : nat) : jsstring := digits (Nat.to_uint n).

End JS.

(** ** Values, exceptions and the engine

    The bodies the scan service returns are JSON, so whatever
    [response.json()] resolves with is one of the values below; an object
    is the list of its own properties.  Numbers are kept abstract: the
    script only tests one for zero. *)

Section Values.

Variable number : Type.

Inductive value : Type :=
| VUndefined
| VNull
| VBoolean (b : bool)
| VNumber (n : number)
| VString (s : jsstring)
| VArray (items : list value)
| VObject (fields : list (jsstring * value)).

End Values.

Arguments VUndefined {number}.
Arguments VNull {number}.
Arguments VBoolean {number} b.
Arguments VString {number} s.

(** A thrown [Error] object; the script reads nothing but its [message]. *)
Record error : Type := Err { message : jsstring }.

Inductive completion (A : Type) : Type :=
| Normal (a : A)
| Throw (e : error).

Arguments Throw {A} e.

(** What the script takes from the JavaScript engine and the DOM bindings
    and does not define itself: the number type, the case mapping of
    [toLowerCase], the conversions applied to values that are not strings,
    and the [TypeError]s raised when a property of [null] or [undefined] is
    read or something that is not a function is called. *)
Class Engine : Type := {
  number : Type;
  isZero : number -> bool;
  toLowerCase : jsstring -> jsstring;
  ToStringOther : value number -> completion jsstring;
  greaterThanOne : value number -> completion bool;
  nullishReadError : value number -> jsstring -> error;
  notCallableError : value number -> jsstring -> error
}.

Section Script.

Context {E : Engine}.

Local Abbreviation val := (value number).

(** [ToString(v)] *)
Definition ToString (v : val) : completion jsstring :=
  match v with
  | VString s => Normal s
  | _ => ToStringOther v
  end.

(** [ToBoolean(v)], the test behind [||] and [!]. *)
Definition ToBoolean (v : val) : bool :=
  match v with
  | VUndefined | VNull => false
  | VBoolean b => b
  | VNumber n => negb (isZero n)
  | VString s => negb (isEmpty s)
  | VArray _ | VObject _ => true
  end.

Fixpoint lookup (name : jsstring) (fields : list (jsstring * val)) : val :=
  match fields with
  | [] => VUndefined
  | (k, v) :: rest => if jsstring_eqb k name then v else lookup name rest
  end.

(** [v.name] for the data properties the script reads by name
    ([detail], [document_url], [excerpt]): an own property of an object,
    [undefined] on anything else, a [TypeError] on [null] and
    [undefined]. *)
Definition getField (v : val) (name : jsstring) : completion val :=
  match v with
  | VUndefined | VNull => Throw (nullishReadError v name)
  | VObject fields => Normal (lookup name fields)
  | _ => Normal VUndefined
  end.

(** [v.length]: a count for arrays and strings, else as [getField]. *)
Inductive lengthValue : Type :=
| Count (n : nat)
| Other (v : val).

Definition getLength (v : val) : completion lengthValue :=
  match v with
  | VArray items => Normal (Count (List.length items))
  | VString s => Normal (Count (List.length s))
  | _ => match getField v (lit "length") with
         | Normal x => Normal (Other x)
         | Throw e => Throw e
         end
  end.

(** [len === 0] *)
Definition strictEqualsZero (len : lengthValue) : bool :=
  match len with
  | Count n => Nat.eqb n 0
  | Other (VNumber n) => isZero n
  | Other _ => false
  end.

(** [`${len}`] *)
Definition lengthToString (len : lengthValue) : completion jsstring :=
  match len with
  | Count n => Normal (JS.natToString n)
  | Other v => ToString v
  end.

(** [len > 1] *)
Definition lengthGreaterThanOne (len : lengthValue) : completion bool :=
  match len with
  | Count n => Normal (Nat.ltb 1 n)
  | Other v => greaterThanOne v
  end.

(** The receiver of [excerpt.toLowerCase()]: the method exists on
    strings only. *)
Definition stringReceiver (v : val) (method : jsstring) : completion jsstring :=
  match v with
  | VString s => Normal s
  | VUndefined | VNull => Throw (nullishReadError v method)
  | _ => Throw (notCallableError v method)
  end.

(** ** The page

    DOM nodes as the script builds them: the nodes the browser parses
    from a string assigned to [innerHTML], the text node an assignment to
    [textContent] leaves, and elements with the properties assigned to
    them. *)
Inductive node : Type :=
| Markup (html : jsstring)
| Text (data : jsstring)
| Element (tag : jsstring) (props : list (jsstring * jsstring))
          (children : list node).

(** [document.createElement(tag)] *)
Definition createElement (tag : jsstring) : node := Element tag [] [].

Fixpoint assign (name v : jsstring) (props : list (jsstring * jsstring))
  : list (jsstring * jsstring) :=
  match props with
  | [] => [(name, v)]
  | (k, old) :: rest =>
      if jsstring_eqb k name then (k, v) :: rest
      else (k, old) :: assign name v rest
  end.

(** [e.name = v] for [className], [href] and [target]. *)
Definition setProp (e : node) (name v : jsstring) : node :=
  match e with
  | Element tag props children => Element tag (assign name v props) children
  | _ => e
  end.

(** The children an assignment to [innerHTML] leaves. *)
Definition parsed (html : jsstring) : list node :=
  if isEmpty html then [] else [Markup html].

(** The children an assignment to [textContent] leaves. *)
Definition textOnly (data : jsstring) : list node :=
  if isEmpty data then [] else [Text data].

Definition set_innerHTML (e : node) (html : jsstring) : node :=
  match e with
  | Element tag props _ => Element tag props (parsed html)
  | _ => e
  end.

Definition set_textContent (e : node) (data : jsstring) : node :=
  match e with
  | Element tag props _ => Element tag props (textOnly data)
  | _ => e
  end.

Definition appendChild (e child : node) : node :=
  match e with
  | Element tag props children => Element tag props (children ++ [child])
  | _ => e
  end.

(** The request [fetch] is given; [body] is the object handed to
    [JSON.stringify]. *)
Record request : Type := {
  path : jsstring;
  method : jsstring;
  headers : list (jsstring * jsstring);
  body : list (jsstring * jsstring)
}.

(** [response.ok], and what [response.json()] settles with. *)
Record response : Type := {
  ok : bool;
  json : completion val
}.

(** The state the closures of the script share: the children of
    [resultsDiv], the class list of [loading], [submitBtn.disabled], and
    the requests sent so far. *)
Record page : Type := {
  resultsDiv : list node;
  loading : list jsstring;
  submitBtn_disabled : bool;
  sent : list request
}.

(** Statements: they read and write the page and may throw. *)
Definition M (A : Type) : Type := page -> completion A * page.

Definition ret {A} (a : A) : M A := fun p => (Normal a, p).

Definition throw {A} (e : error) : M A := fun p => (Throw e, p).

Definition bind {A B} (m : M A) (k : A -> M B) : M B :=
  fun p =>
    match m p with
    | (Normal a, p') => k a p'
    | (Throw e, p') => (Throw e, p')
    end.

Definition lift {A} (c : completion A) : M A := fun p => (c, p).

(** [try { body } catch (error) { handler } finally { finalizer }] *)
Definition tryCatchFinally (body : M unit) (handler : error -> M unit)
           (finalizer : M unit) : M unit :=
  fun p =>
    let (r1, p1) := body p in
    let (r2, p2) := match r1 with
                    | Normal a => (Normal a, p1)
                    | Throw e => handler e p1
                    end in
    match finalizer p2 with
    | (Normal _, p3) => (r2, p3)
    | (Throw e, p3) => (Throw e, p3)
    end.

Local Notation "x <- m ;; k" := (bind m (fun x => k))
  (at level 100, m at next level, right associativity).
Local Notation "m ;;; k" := (bind m (fun _ => k))
  (at level 100, right associativity).

(** ** The script *)

(** The network: what [fetch] settles with for a request, a response or
    the error it rejects with. *)
Variable network : request -> completion response.

(** [fetch('/scan', ...)] *)
Definition fetch (req : request) : M response :=
  fun p =>
    (network req,
     {| resultsDiv := resultsDiv p;
        loading := loading p;
        submitBtn_disabled := submitBtn_disabled p;
        sent := sent p ++ [req] |}).

Definition scanRequest (url keyword : jsstring) : request :=
  {| path := lit "/scan";
     method := lit "POST";
     headers := [(lit "Content-Type", lit "application/json")];
     body := [(lit "url", url); (lit "keyword", keyword)] |}.

(** [loading.classList.add(token)] and [loading.classList.remove(token)] *)
Definition classList_add (token : jsstring) (l : list jsstring) : list jsstring :=
  if existsb (jsstring_eqb token) l then l else l ++ [token].

Definition classList_remove (token : jsstring) (l : list jsstring) : list jsstring :=
  filter (fun t => negb (jsstring_eqb t token)) l.

Definition setLoading (isLoading : bool) : M unit :=
  fun p =>
    if isLoading then
      (Normal tt,
       {| resultsDiv := resultsDiv p;
          loading := classList_add (lit "active") (loading p);
          submitBtn_disabled := true;
          sent := sent p |})
    else
      (Normal tt,
       {| resultsDiv := resultsDiv p;
          loading := classList_remove (lit "active") (loading p);
          submitBtn_disabled := false;
          sent := sent p |}).

(** [resultsDiv.innerHTML = html] *)
Definition resultsDiv_set_innerHTML (html : jsstring) : M unit :=
  fun p =>
    (Normal tt,
     {| resultsDiv := parsed html;
        loading := loading p;
        submitBtn_disabled := submitBtn_disabled p;
        sent := sent p |}).

(** [resultsDiv.appendChild(child)] *)
Definition resultsDiv_appendChild (child : node) : M unit :=
  fun p =>
    (Normal tt,
     {| resultsDiv := resultsDiv p ++ [child];
        loading := loading p;
        submitBtn_disabled := submitBtn_disabled p;
        sent := sent p |}).

Definition clearResults : M unit := resultsDiv_set_innerHTML [].

(** The serialisation of a text node, which is what [innerHTML] reads
    back from an element whose only child is text. *)
Definition escapeUnit (c : code_unit) : jsstring :=
  if N.eqb c 38 then lit "&amp;"
  else if N.eqb c 160 then lit "&nbsp;"
  else if N.eqb c 60 then lit "&lt;"
  else if N.eqb c 62 then lit "&gt;"
  else [c].

(** [escapeHtml(text)]: a scratch [div] is given [text] as its text and
    its [innerHTML] is read back.  The scratch element never holds
    anything but that one text node. *)
Definition escapeHtml (text : jsstring) : jsstring :=
  match set_textContent (createElement (lit "div")) text with
  | Element _ _ children =>
      flat_map (fun child =>
                  match child with
                  | Text data => flat_map escapeUnit data
                  | Markup html => html
                  | Element _ _ _ => []
                  end) children
  | _ => []
  end.

(** The template literal of [showError]. *)
Definition errorMarkup (message : jsstring) : jsstring :=
  lit "<div class=" ++ dq ++ lit "error" ++ dq ++ lit ">"
  ++ escapeHtml message ++ lit "</div>".

Definition showError (message : jsstring) : M unit :=
  resultsDiv_set_innerHTML (errorMarkup message).

Definition noResultsMarkup : jsstring :=
  lit "<div class=" ++ dq ++ lit "no-results" ++ dq
  ++ lit ">No matches found for the keyword in the scanned documents.</div>".

(** The three slices of lines 97 to 99. *)
Definition beforeKeyword (excerpt : jsstring) (keywordIndex : Z) : jsstring :=
  JS.substring excerpt 0 (Some keywordIndex).

Definition keywordText (excerpt keyword : jsstring) (keywordIndex : Z) : jsstring :=
  JS.substring excerpt keywordIndex (Some (keywordIndex + JS.length keyword)%Z).

Definition afterKeyword (excerpt keyword : jsstring) (keywordIndex : Z) : jsstring :=
  JS.substring excerpt (keywordIndex + JS.length keyword)%Z None.

(** The string assigned to [excerptDiv.innerHTML] at lines 101 to 104. *)
Definition highlightMarkup (excerpt keyword : jsstring) (keywordIndex : Z) : jsstring :=
  escapeHtml (beforeKeyword excerpt keywordIndex)
  ++ (lit "<span class=" ++ dq ++ lit "result-keyword" ++ dq ++ lit ">"
      ++ escapeHtml (keywordText excerpt keyword keywordIndex) ++ lit "</span>")
  ++ escapeHtml (afterKeyword excerpt keyword keywordIndex).

(** The conversion of a value assigned to [textContent]. *)
Definition toTextContent (v : val) : completion jsstring :=
  match v with
  | VUndefined | VNull => Normal []
  | _ => ToString v
  end.

(** The callback of [results.forEach], lines 79 to 112. *)
Definition renderResult (keyword : jsstring) (result : val) : M unit :=
  let resultItem := createElement (lit "div") in
  let resultItem := setProp resultItem (lit "className") (lit "result-item") in
  let urlLink := createElement (lit "a") in
  document_url <- lift (getField result (lit "document_url")) ;;
  href <- lift (ToString document_url) ;;
  let urlLink := setProp urlLink (lit "href") (JS.toWellFormed href) in
  let urlLink := setProp urlLink (lit "target") (lit "_blank") in
  let urlLink := setProp urlLink (lit "className") (lit "result-url") in
  document_url <- lift (getField result (lit "document_url")) ;;
  text <- lift (toTextContent document_url) ;;
  let urlLink := set_textContent urlLink text in
  let excerptDiv := createElement (lit "div") in
  let excerptDiv := setProp excerptDiv (lit "className") (lit "result-excerpt") in
  let normalizedKeyword := toLowerCase keyword in
  excerptValue <- lift (getField result (lit "excerpt")) ;;
  excerpt <- lift (stringReceiver excerptValue (lit "toLowerCase")) ;;
  let normalizedExcerpt := toLowerCase excerpt in
  let keywordIndex := JS.indexOf normalizedExcerpt normalizedKeyword in
  let excerptDiv :=
    if negb (Z.eqb keywordIndex (-1)) then
      set_innerHTML excerptDiv (highlightMarkup excerpt keyword keywordIndex)
    else
      set_textContent excerptDiv excerpt in
  let resultItem := appendChild resultItem urlLink in
  let resultItem := appendChild resultItem excerptDiv in
  resultsDiv_appendChild resultItem.

Fixpoint forEachItem (callback : val -> M unit) (items : list val) : M unit :=
  match items with
  | [] => ret tt
  | item :: rest => callback item ;;; forEachItem callback rest
  end.

(** [results.forEach(callback)] *)
Definition forEach (results : val) (callback : val -> M unit) : M unit :=
  match results with
  | VArray items => forEachItem callback items
  | VUndefined | VNull => throw (nullishReadError results (lit "forEach"))
  | _ => throw (notCallableError results (lit "forEach"))
  end.

Definition displayResults (results : val) (keyword : jsstring) : M unit :=
  len <- lift (getLength results) ;;
  if strictEqualsZero len then
    resultsDiv_set_innerHTML noResultsMarkup
  else
    let resultsTitle := createElement (lit "div") in
    let resultsTitle := setProp resultsTitle (lit "className") (lit "results-title") in
    len <- lift (getLength results) ;;
    count <- lift (lengthToString len) ;;
    len <- lift (getLength results) ;;
    plural <- lift (lengthGreaterThanOne len) ;;
    let resultsTitle :=
      set_textContent resultsTitle
        (lit "Found " ++ count ++ lit " match"
         ++ (if plural : bool then lit "es" else [])) in
    resultsDiv_appendChild resultsTitle ;;;
    forEach results (renderResult keyword).

(** The submit listener, lines 9 to 48, given the values of the two
    inputs. *)
Definition onSubmit (urlValue keywordValue : jsstring) : M unit :=
  let url := JS.trim urlValue in
  let keyword := JS.trim keywordValue in
  if isEmpty url || isEmpty keyword then
    showError (lit "Please fill in both URL and keyword fields.")
  else
    setLoading true ;;;
    clearResults ;;;
    tryCatchFinally
      (response <- fetch (scanRequest url keyword) ;;
       (if negb (ok response) then
          errorData <- lift (json response) ;;
          detail <- lift (getField errorData (lit "detail")) ;;
          message <- lift (ToString
                             (if ToBoolean detail then detail
                              else VString (lit "An error occurred while scanning documents."))) ;;
          throw (Err message)
        else ret tt) ;;;
       results <- lift (json response) ;;
       displayResults results keyword)
      (fun error =>
         showError (if negb (isEmpty (message error)) then message error
                    else lit "Failed to scan documents. Please check the URL and try again."))
      (setLoading false).

End Script.

(** ** What the properties below speak of *)

Section Vocabulary.

Context {E : Engine}.

Local Abbreviation val := (value number).

(** [p] occurs in [s] at offset [j]. *)
Definition occursAt (p s : jsstring) (j : nat) : Prop :=
  exists a b, s = a ++ p ++ b /\ List.length a = j.

(** A scan result as the service documents it: an object whose
    [document_url] and [excerpt] are the strings [u] and [e]. *)
Definition isScanResult (v : val) (r : jsstring * jsstring) : Prop :=
  exists fields,
    v = VObject fields
    /\ lookup (lit "document_url") fields = VString (fst r)
    /\ lookup (lit "excerpt") fields = VString (snd r).

(** The children [excerptDiv] ends with, lines 92 to 107. *)
Definition renderedExcerpt (keyword excerpt : jsstring) : list node :=
  let keywordIndex := JS.indexOf (toLowerCase excerpt) (toLowerCase keyword) in
  if negb (Z.eqb keywordIndex (-1)) then
    parsed (highlightMarkup excerpt keyword keywordIndex)
  else
    textOnly excerpt.

(** The link [urlLink] as line 109 appends it. *)
Definition renderedLink (u : jsstring) : node :=
  Element (lit "a")
          [(lit "href", JS.toWellFormed u); (lit "target", lit "_blank");
           (lit "className", lit "result-url")]
          (textOnly u).

(** The element [resultItem] as line 111 appends it. *)
Definition renderedItem (keyword : jsstring) (r : jsstring * jsstring) : node :=
  Element (lit "div") [(lit "className", lit "result-item")]
          [renderedLink (fst r);
           Element (lit "div") [(lit "className", lit "result-excerpt")]
                   (renderedExcerpt keyword (snd r))].

(** The element [resultsTitle] as line 77 appends it. *)
Definition renderedTitle (text : jsstring) : node :=
  Element (lit "div") [(lit "className", lit "results-title")] (textOnly text).

(** The page a submission that went to the network ends with, given the
    children left in the results container. *)
Definition settled (p : page) (req : request) (children : list node) : page :=
  {| resultsDiv := children;
     loading := classList_remove (lit "active")
                                 (classList_add (lit "active") (loading p));
     submitBtn_disabled := false;
     sent := sent p ++ [req] |}.

(** The text the [catch] clause shows for a caught error. *)
Definition caughtText (e : error) : jsstring :=
  if negb (isEmpty (message e)) then message e
  else lit "Failed to scan documents. Please check the URL and try again.".

(** [displayResults] and what it calls touch nothing but the results
    container. *)
Definition frames {A : Type} (m : M A) : Prop :=
  forall p,
    loading (snd (m p)) = loading p
    /\ submitBtn_disabled (snd (m p)) = submitBtn_disabled p
    /\ sent (snd (m p)) = sent p.

(** A statement whose outcome and whose effect on the results container
    depend on nothing of the page but that container. *)
Definition container_only {A : Type} (m : M A) : Prop :=
  forall p q,
    resultsDiv p = resultsDiv q ->
    fst (m p) = fst (m q) /\ resultsDiv (snd (m p)) = resultsDiv (snd (m q)).

(** A rendered result: a [div] of class [result-item] holding a link and
    an excerpt. *)
Definition isResultItem (n : node) : Prop :=
  exists link excerptDiv,
    n = Element (lit "div") [(lit "className", lit "result-item")]
                [link; excerptDiv].

End Vocabulary.

(** Reading escaped text back: the four character references
    [escapeHtml] writes stand for the code unit they were written for. *)
Fixpoint stripPrefix (p s : jsstring) : option jsstring :=
  match p, s with
  | [], _ => Some s
  | _ :: _, [] => None
  | x :: p', y :: s' => if unit_eqb x y then stripPrefix p' s' else None
  end.

Fixpoint unescapeFuel (fuel : nat) (s : jsstring) : jsstring :=
  match fuel with
  | O => []
  | S fuel' =>
      match s with
      | [] => []
      | c :: rest =>
          match stripPrefix (lit "&amp;") s with
          | Some r => 38%N :: unescapeFuel fuel' r
          | None =>
          match stripPrefix (lit "&nbsp;") s with
          | Some r => 160%N :: unescapeFuel fuel' r
          | None =>
          match stripPrefix (lit "&lt;") s with
          | Some r => 60%N :: unescapeFuel fuel' r
          | None =>
          match stripPrefix (lit "&gt;") s with
          | Some r => 62%N :: unescapeFuel fuel' r
          | None => c :: unescapeFuel fuel' rest
          end end end end
      end
  end.

Definition unescapeHtml (s : jsstring) : jsstring :=
  unescapeFuel (List.length s) s.



(** ** An engine to run the script on examples

    Integers for numbers; the case mapping of Basic Latin, of the Latin-1
    Supplement and of U+0130 LATIN CAPITAL LETTER I WITH DOT ABOVE, whose
    lower case is the two code units U+0069 U+0307 in the Unicode special
    casing that [toLowerCase] follows (other code units are left as they
    are); conversions of values made of integers, strings, booleans,
    arrays and plain objects; the error texts one common engine prints. *)
Module Sample.

Definition lowerUnit (c : code_unit) : jsstring :=
  if ((65 <=? c) && (c <=? 90))%N then [(c + 32)%N]
  else if ((192 <=? c) && (c <=? 222) && negb (c =? 215))%N then [(c + 32)%N]
  else if (c =? 304)%N then [105%N; 775%N]
  else [c].

Definition lowerCase (s : jsstring) : jsstring := flat_map lowerUnit s.

Definition numberToString (n : Z) : jsstring :=
  match n with
  | Z0 => lit "0"
  | Zpos p => JS.natToString (Pos.to_nat p)
  | Zneg p => lit "-" ++ JS.natToString (Pos.to_nat p)
  end.

Definition typeError (text : jsstring) : error := Err text.

Fixpoint hasField (name : jsstring) (fields : list (jsstring * value Z)) : bool :=
  match fields with
  | [] => false
  | (k, _) :: rest => jsstring_eqb k name || hasField name rest
  end.

Fixpoint toStringValue (v : value Z) : completion jsstring :=
  match v with
  | VUndefined => Normal (lit "undefined")
  | VNull => Normal (lit "null")
  | VBoolean true => Normal (lit "true")
  | VBoolean false => Normal (lit "false")
  | VNumber n => Normal (numberToString n)
  | VString s => Normal s
  | VArray items =>
      (fix join (l : list (value Z)) : completion jsstring :=
         match l with
         | [] => Normal []
         | x :: rest =>
             let first := match x with
                          | VUndefined | VNull => Normal []
                          | _ => toStringValue x
                          end in
             match first, rest with
             | Throw e, _ => Throw e
             | Normal a, [] => Normal a
             | Normal a, _ :: _ =>
                 match join rest with
                 | Normal b => Normal (a ++ lit "," ++ b)
                 | Throw e => Throw e
                 end
             end
         end) items
  | VObject fields =>
      if hasField (lit "toString") fields
      then Throw (typeError (lit "Cannot convert object to primitive value"))
      else Normal (lit "[object Object]")
  end.

Fixpoint decimalValue (acc : N) (s : jsstring) : option N :=
  match s with
  | [] => Some acc
  | c :: rest =>
      if ((48 <=? c) && (c <=? 57))%N
      then decimalValue (acc * 10 + (c - 48))%N rest
      else None
  end.

(** [v > 1]; a string counts as a number here when it is a plain run of
    decimal digits. *)
Definition exceedsOne (v : value Z) : completion bool :=
  match v with
  | VUndefined | VNull | VBoolean _ => Normal false
  | VNumber n => Normal (1 <? n)%Z
  | _ =>
      match toStringValue v with
      | Throw e => Throw e
      | Normal [] => Normal false
      | Normal s =>
          Normal match decimalValue 0 s with
                 | Some n => (1 <? n)%N
                 | None => false
                 end
      end
  end.

Definition describe (v : value Z) : jsstring :=
  match v with
  | VNull => lit "null"
  | _ => lit "undefined"
  end.

Definition readError (v : value Z) (name : jsstring) : error :=
  typeError (lit "Cannot read properties of " ++ describe v
             ++ lit " (reading '" ++ name ++ lit "')").

Definition callError (v : value Z) (name : jsstring) : error :=
  typeError (name ++ lit " is not a function").

#[global] Instance engine : Engine := {|
  number := Z;
  isZero := Z.eqb 0;
  toLowerCase := lowerCase;
  ToStringOther := toStringValue;
  greaterThanOne := exceedsOne;
  nullishReadError := readError;
  notCallableError := callError
|}.

(** The page before the first submission. *)
Definition idle : page :=
  {| resultsDiv := []; loading := []; submitBtn_disabled := false; sent := [] |}.

(** A network that settles every request the same way. *)
Definition replies (r : completion response) : request -> completion response :=
  fun _ => r.

(** A success response and a non-success response with the given
    body. *)
Definition success (results : value Z) : completion response :=
  Normal {| ok := true; json := Normal results |}.

Definition failure (errorData : value Z) : completion response :=
  Normal {| ok := false; json := Normal errorData |}.

Definition scanResult (u e : jsstring) : value Z :=
  VObject [(lit "document_url", VString u); (lit "excerpt", VString e)].

End Sample.

(** * Properties *)

(** ** Strings *)

Lemma jsstring_eqb_eq (a b : jsstring) : jsstring_eqb a b = true <-> a = b.
Proof.
  revert b; induction a as [|x a IH]; intros [|y b]; simpl;
    try (split; (discriminate || reflexivity)).
  rewrite andb_true_iff, IH. unfold unit_eqb. rewrite N.eqb_eq.
  split; [intros [-> ->]; reflexivity | intros H; inversion H; auto].
Qed.

Lemma jsstring_eqb_refl (a : jsstring) : jsstring_eqb a a = true.
Proof. apply jsstring_eqb_eq; reflexivity. Qed.

Lemma startsWith_spec (p s : jsstring) :
  JS.startsWith p s = true <-> exists b, s = p ++ b.
Proof.
  revert s; induction p as [|x p IH]; intros s; simpl.
  - split; [intros _; exists s; reflexivity | reflexivity].
  - destruct s as [|y s].
    + split; [discriminate | intros [b Hb]; discriminate].
    + rewrite andb_true_iff, IH. unfold unit_eqb. rewrite N.eqb_eq.
      split.
      * intros [-> [b ->]]. exists b; reflexivity.
      * intros [b Hb]. inversion Hb; subst. split; [reflexivity | exists b; reflexivity].
Qed.

Lemma occursAt_zero (p s : jsstring) :
  occursAt p s 0 <-> JS.startsWith p s = true.
Proof.
  rewrite startsWith_spec. unfold occursAt. split.
  - intros (a & b & -> & Ha). destruct a; [|discriminate]. exists b; reflexivity.
  - intros [b ->]. exists [], b. split; reflexivity.
Qed.

Lemma occursAt_succ (p : jsstring) (c : code_unit) (s : jsstring) (j : nat) :
  occursAt p (c :: s) (S j) <-> occursAt p s j.
Proof.
  unfold occursAt. split.
  - intros (a & b & Hs & Ha). destruct a as [|x a]; [discriminate|].
    simpl in Hs, Ha. inversion Hs; subst. exists a, b. split; [reflexivity | lia].
  - intros (a & b & -> & Ha). exists (c :: a), b. split; [reflexivity | simpl; lia].
Qed.

Lemma occursAt_nil (p : jsstring) (j : nat) :
  occursAt p [] j -> j = 0 /\ p = [].
Proof.
  intros (a & b & Hs & Ha). symmetry in Hs.
  apply app_eq_nil in Hs as [-> Hs]. apply app_eq_nil in Hs as [-> _].
  simpl in Ha. auto.
Qed.

Lemma occursAt_bound (p s : jsstring) (j : nat) :
  occursAt p s j -> j + List.length p <= List.length s.
Proof.
  intros (a & b & -> & <-). rewrite !length_app. lia.
Qed.

(** [indexFrom] returns [-1] or an offset counted from [pos]: the least
    one at which the pattern occurs. *)
Lemma indexFrom_spec (p s : jsstring) (pos : Z) :
  (JS.indexFrom p s pos = (-1)%Z /\ forall j, ~ occursAt p s j)
  \/ (exists j, JS.indexFrom p s pos = (pos + Z.of_nat j)%Z
                /\ occursAt p s j
                /\ forall j', j' < j -> ~ occursAt p s j').
Proof.
  revert pos; induction s as [|c s IH]; intros pos; simpl.
  - destruct (JS.startsWith p []) eqn:Hsw.
    + right. exists 0. rewrite Z.add_0_r. split; [reflexivity|].
      split; [apply occursAt_zero; exact Hsw | intros j' Hj'; lia].
    + left. split; [reflexivity|]. intros j Hj.
      destruct (occursAt_nil Hj) as [-> ->]. simpl in Hsw. discriminate.
  - destruct (JS.startsWith p (c :: s)) eqn:Hsw.
    + right. exists 0. rewrite Z.add_0_r. split; [reflexivity|].
      split; [apply occursAt_zero; exact Hsw | intros j' Hj'; lia].
    + destruct (IH (pos + 1)%Z) as [[Hm Hno] | (j & Hj & Hocc & Hleast)].
      * left. split; [exact Hm|]. intros [|j] Hj.
        -- apply occursAt_zero in Hj. congruence.
        -- apply occursAt_succ in Hj. exact (Hno j Hj).
      * right. exists (S j). split; [rewrite Hj; lia|].
        split; [apply occursAt_succ; exact Hocc|].
        intros [|j'] Hlt Hj'.
        -- apply occursAt_zero in Hj'. congruence.
        -- apply occursAt_succ in Hj'. apply (Hleast j'); [lia | exact Hj'].
Qed.

(** [indexOf] finds the first occurrence when there is one. *)
Lemma indexOf_found (s p : jsstring) (j : nat) :
  occursAt p s j ->
  exists i, JS.indexOf s p = Z.of_nat i /\ occursAt p s i
            /\ forall j', j' < i -> ~ occursAt p s j'.
Proof.
  intros Hj. unfold JS.indexOf.
  destruct (indexFrom_spec p s 0) as [[_ Hno] | (i & Hi & Hocc & Hleast)].
  - destruct (Hno j Hj).
  - exists i. rewrite Hi. auto.
Qed.

(** [indexOf] is [-1] exactly when the pattern does not occur. *)
Lemma indexOf_none (s p : jsstring) :
  JS.indexOf s p = (-1)%Z <-> forall j, ~ occursAt p s j.
Proof.
  unfold JS.indexOf.
  destruct (indexFrom_spec p s 0) as [[Hm Hno] | (i & Hi & Hocc & _)].
  - split; auto.
  - split; [rewrite Hi; lia | intros Hno; destruct (Hno i Hocc)].
Qed.

Lemma indexOf_range (s p : jsstring) :
  JS.indexOf s p = (-1)%Z
  \/ (0 <= JS.indexOf s p <= JS.length s - JS.length p)%Z.
Proof.
  unfold JS.indexOf, JS.length.
  destruct (indexFrom_spec p s 0) as [[Hm _] | (i & Hi & Hocc & _)]; [auto|].
  right. rewrite Hi. apply occursAt_bound in Hocc. lia.
Qed.


(** ** Escaping *)

Lemma escapeHtml_flat (text : jsstring) :
  escapeHtml text = flat_map escapeUnit text.
Proof.
  unfold escapeHtml, set_textContent, createElement, textOnly.
  destruct text as [|c text]; [reflexivity|].
  cbn [isEmpty flat_map]. rewrite app_nil_r. reflexivity.
Qed.

Lemma escapeHtml_app (a b : jsstring) :
  escapeHtml (a ++ b) = escapeHtml a ++ escapeHtml b.
Proof. rewrite !escapeHtml_flat. apply flat_map_app. Qed.

(** The four special code units, and what every other one is sent to. *)
Lemma escapeUnit_cases (c : code_unit) :
  (c = 38%N /\ escapeUnit c = lit "&amp;")
  \/ (c = 160%N /\ escapeUnit c = lit "&nbsp;")
  \/ (c = 60%N /\ escapeUnit c = lit "&lt;")
  \/ (c = 62%N /\ escapeUnit c = lit "&gt;")
  \/ (c <> 38%N /\ c <> 160%N /\ c <> 60%N /\ c <> 62%N /\ escapeUnit c = [c]).
Proof.
  unfold escapeUnit.
  destruct (N.eqb_spec c 38); [subst; auto|].
  destruct (N.eqb_spec c 160); [subst; auto|].
  destruct (N.eqb_spec c 60); [subst; auto 6|].
  destruct (N.eqb_spec c 62); [subst; auto 6|].
  do 4 right. auto.
Qed.



Lemma stripPrefix_app (p r : jsstring) : stripPrefix p (p ++ r) = Some r.
Proof.
  induction p as [|x p IH]; simpl; [destruct r; reflexivity|].
  unfold unit_eqb. rewrite N.eqb_refl. exact IH.
Qed.

Lemma stripPrefix_head (x y : code_unit) (p s : jsstring) :
  x <> y -> stripPrefix (x :: p) (y :: s) = None.
Proof.
  intros Hxy. simpl. unfold unit_eqb.
  destruct (N.eqb_spec x y); [contradiction | reflexivity].
Qed.

Lemma unescapeFuel_escape (text : jsstring) (fuel : nat) :
  List.length (flat_map escapeUnit text) <= fuel ->
  unescapeFuel fuel (flat_map escapeUnit text) = text.
Proof.
  revert fuel; induction text as [|c text IH]; intros fuel Hfuel.
  - destruct fuel; reflexivity.
  - simpl flat_map in *. rewrite length_app in Hfuel.
    destruct (escapeUnit_cases c)
      as [[-> Hc] | [[-> Hc] | [[-> Hc] | [[-> Hc] | (H1 & H2 & H3 & H4 & Hc)]]]];
      rewrite Hc in *; simpl List.length in Hfuel;
      (destruct fuel as [|fuel]; [lia|]).
    + change (unescapeFuel (S fuel) (lit "&amp;" ++ flat_map escapeUnit text))
        with (38%N :: unescapeFuel fuel (flat_map escapeUnit text)).
      f_equal. apply IH. lia.
    + change (unescapeFuel (S fuel) (lit "&nbsp;" ++ flat_map escapeUnit text))
        with (160%N :: unescapeFuel fuel (flat_map escapeUnit text)).
      f_equal. apply IH. lia.
    + change (unescapeFuel (S fuel) (lit "&lt;" ++ flat_map escapeUnit text))
        with (60%N :: unescapeFuel fuel (flat_map escapeUnit text)).
      f_equal. apply IH. lia.
    + change (unescapeFuel (S fuel) (lit "&gt;" ++ flat_map escapeUnit text))
        with (62%N :: unescapeFuel fuel (flat_map escapeUnit text)).
      f_equal. apply IH. lia.
    + change ([c] ++ flat_map escapeUnit text) with (c :: flat_map escapeUnit text).
      cbn [unescapeFuel].
      assert (Hne : forall p, stripPrefix (38%N :: p) (c :: flat_map escapeUnit text) = None)
        by (intros p; apply stripPrefix_head; congruence).
      change (lit "&amp;") with (38%N :: lit "amp;").
      change (lit "&nbsp;") with (38%N :: lit "nbsp;").
      change (lit "&lt;") with (38%N :: lit "lt;").
      change (lit "&gt;") with (38%N :: lit "gt;").
      rewrite !Hne. f_equal. apply IH. lia.
Qed.

(** Escaped text reads back as the text that was escaped. *)
Lemma unescapeHtml_escapeHtml (text : jsstring) :
  unescapeHtml (escapeHtml text) = text.
Proof.
  rewrite escapeHtml_flat. unfold unescapeHtml.
  apply unescapeFuel_escape. lia.
Qed.

Lemma escapeHtml_injective (a b : jsstring) :
  escapeHtml a = escapeHtml b -> a = b.
Proof.
  intros H. rewrite <- (unescapeHtml_escapeHtml a), H.
  apply unescapeHtml_escapeHtml.
Qed.

(** ** Rendering *)

Section Rendering.

Context {E : Engine}.

Local Abbreviation val := (value number).

Lemma highlightMarkup_not_empty (excerpt keyword : jsstring) (i : Z) :
  parsed (highlightMarkup excerpt keyword i)
  = [Markup (highlightMarkup excerpt keyword i)].
Proof.
  unfold parsed, highlightMarkup.
  destruct (escapeHtml (beforeKeyword excerpt i)); reflexivity.
Qed.

(** A well-formed result is rendered without an exception, as one more
    child of the results container. *)
Lemma renderResult_scanResult (keyword : jsstring) (v : val)
      (r : jsstring * jsstring) (p : page) :
  isScanResult v r ->
  renderResult keyword v p
  = (Normal tt,
     {| resultsDiv := resultsDiv p ++ [renderedItem keyword r];
        loading := loading p;
        submitBtn_disabled := submitBtn_disabled p;
        sent := sent p |}).
Proof.
  intros (fields & -> & Hu & He).
  unfold renderResult, bind, lift. cbn [getField].
  rewrite Hu, He. cbn [ToString toTextContent stringReceiver].
  unfold resultsDiv_appendChild, renderedItem, renderedLink, renderedExcerpt.
  destruct (negb (JS.indexOf (toLowerCase (snd r)) (toLowerCase keyword) =? -1)%Z);
    reflexivity.
Qed.

Lemma forEachItem_scanResults (keyword : jsstring) (items : list val)
      (rs : list (jsstring * jsstring)) (p : page) :
  Forall2 isScanResult items rs ->
  forEachItem (renderResult keyword) items p
  = (Normal tt,
     {| resultsDiv := resultsDiv p ++ map (renderedItem keyword) rs;
        loading := loading p;
        submitBtn_disabled := submitBtn_disabled p;
        sent := sent p |}).
Proof.
  intros H; revert p; induction H as [|v r items rs Hv _ IH]; intros p.
  - simpl. unfold ret. rewrite app_nil_r. destruct p; reflexivity.
  - cbn [forEachItem]. unfold bind at 1.
    rewrite (renderResult_scanResult keyword p Hv), IH. cbn.
    rewrite <- app_assoc. reflexivity.
Qed.

End Rendering.

(** ** What leaves the rest of the page alone *)

Create HintDb frames.

Section Frames.

Context {E : Engine}.

Lemma frames_ret {A : Type} (a : A) : frames (ret a).
Proof. intros p; simpl; auto. Qed.

Lemma frames_throw {A : Type} (e : error) : frames (@throw A e).
Proof. intros p; simpl; auto. Qed.

Lemma frames_lift {A : Type} (c : completion A) : frames (lift c).
Proof. intros p; simpl; auto. Qed.

Lemma frames_bind {A B : Type} (m : M A) (k : A -> M B) :
  frames m -> (forall a, frames (k a)) -> frames (bind m k).
Proof.
  intros Hm Hk p. unfold bind. specialize (Hm p).
  destruct (m p) as [[a | e] p']; simpl in Hm.
  - destruct (Hk a p') as (H1 & H2 & H3). rewrite H1, H2, H3. exact Hm.
  - simpl. exact Hm.
Qed.

Lemma frames_set_innerHTML (html : jsstring) : frames (resultsDiv_set_innerHTML html).
Proof. intros p; simpl; auto. Qed.

Lemma frames_appendChild (child : node) : frames (resultsDiv_appendChild child).
Proof. intros p; simpl; auto. Qed.

End Frames.

#[global] Hint Resolve frames_ret frames_throw frames_lift frames_set_innerHTML
  frames_appendChild : frames.

(** ** The submit handler, case by case *)

Section Handler.

Context {E : Engine}.

Variable network : request -> completion response.

Local Abbreviation val := (value number).

Lemma isEmpty_false (s : jsstring) : s <> [] -> isEmpty s = false.
Proof. destruct s; [congruence | reflexivity]. Qed.

Lemma isEmpty_true (s : jsstring) : isEmpty s = true <-> s = [].
Proof. destruct s; simpl; split; (reflexivity || discriminate). Qed.

Lemma classList_remove_not_in (token : jsstring) (l : list jsstring) :
  ~ In token (classList_remove token l).
Proof.
  unfold classList_remove. intros H. apply filter_In in H as [_ H].
  rewrite jsstring_eqb_refl in H. discriminate.
Qed.

Ltac enter_handler Hu Hk :=
  unfold onSubmit;
  rewrite (isEmpty_false Hu), (isEmpty_false Hk);
  cbn [orb];
  unfold bind at 1; cbn [setLoading];
  unfold bind at 1; unfold clearResults at 1, resultsDiv_set_innerHTML at 1;
  cbn [parsed isEmpty resultsDiv loading submitBtn_disabled sent];
  unfold tryCatchFinally; unfold bind at 1; unfold fetch at 1;
  cbn [resultsDiv loading submitBtn_disabled sent].

Lemma onSubmit_invalid (urlValue keywordValue : jsstring) (p : page) :
  JS.trim urlValue = [] \/ JS.trim keywordValue = [] ->
  onSubmit network urlValue keywordValue p
  = (Normal tt,
     {| resultsDiv :=
          [Markup (errorMarkup (lit "Please fill in both URL and keyword fields."))];
        loading := loading p;
        submitBtn_disabled := submitBtn_disabled p;
        sent := sent p |}).
Proof.
  intros H. unfold onSubmit.
  replace (isEmpty (JS.trim urlValue) || isEmpty (JS.trim keywordValue)) with true.
  - reflexivity.
  - symmetry. apply orb_true_iff.
    destruct H as [H | H]; [left | right]; apply isEmpty_true; exact H.
Qed.

Lemma onSubmit_rejected (urlValue keywordValue : jsstring) (p : page) (e : error) :
  JS.trim urlValue <> [] -> JS.trim keywordValue <> [] ->
  network (scanRequest (JS.trim urlValue) (JS.trim keywordValue)) = Throw e ->
  onSubmit network urlValue keywordValue p
  = (Normal tt,
     settled p (scanRequest (JS.trim urlValue) (JS.trim keywordValue))
             [Markup (errorMarkup (caughtText e))]).
Proof.
  intros Hu Hk Hnet. enter_handler Hu Hk. rewrite Hnet. reflexivity.
Qed.

Lemma onSubmit_unparseable (urlValue keywordValue : jsstring) (p : page) (e : error) :
  JS.trim urlValue <> [] -> JS.trim keywordValue <> [] ->
  network (scanRequest (JS.trim urlValue) (JS.trim keywordValue))
  = Normal {| ok := false; json := Throw e |} ->
  onSubmit network urlValue keywordValue p
  = (Normal tt,
     settled p (scanRequest (JS.trim urlValue) (JS.trim keywordValue))
             [Markup (errorMarkup (caughtText e))]).
Proof.
  intros Hu Hk Hnet. enter_handler Hu Hk. rewrite Hnet. reflexivity.
Qed.

Lemma onSubmit_failure (urlValue keywordValue : jsstring) (p : page)
      (errorData detail : val) :
  JS.trim urlValue <> [] -> JS.trim keywordValue <> [] ->
  network (scanRequest (JS.trim urlValue) (JS.trim keywordValue))
  = Normal {| ok := false; json := Normal errorData |} ->
  getField errorData (lit "detail") = Normal detail ->
  onSubmit network urlValue keywordValue p
  = (Normal tt,
     settled p (scanRequest (JS.trim urlValue) (JS.trim keywordValue))
             [Markup (errorMarkup
                        (caughtText
                           match ToString
                                   (if ToBoolean detail then detail
                                    else VString (lit "An error occurred while scanning documents."))
                           with
                           | Normal text => Err text
                           | Throw e => e
                           end))]).
Proof.
  intros Hu Hk Hnet Hd. enter_handler Hu Hk. rewrite Hnet.
  cbn [ok json negb]. unfold bind, lift. rewrite Hd.
  destruct (ToString _); reflexivity.
Qed.

Lemma frames_renderResult (keyword : jsstring) (result : val) :
  frames (renderResult keyword result).
Proof.
  unfold renderResult.
  repeat (apply frames_bind; [auto with frames | intros ?]).
  auto with frames.
Qed.

Lemma frames_forEach (keyword : jsstring) (results : val) :
  frames (forEach results (renderResult keyword)).
Proof.
  destruct results; simpl; auto with frames.
  induction items as [|item items IH]; simpl; [auto with frames|].
  apply frames_bind; [apply frames_renderResult | intros _; exact IH].
Qed.

Lemma frames_displayResults (results : val) (keyword : jsstring) :
  frames (displayResults results keyword).
Proof.
  unfold displayResults.
  apply frames_bind; [auto with frames | intros len].
  destruct (strictEqualsZero len); [auto with frames|].
  repeat (apply frames_bind; [auto with frames | intros ?]).
  apply frames_forEach.
Qed.

Lemma onSubmit_success (urlValue keywordValue : jsstring) (p : page)
      (results : val) :
  JS.trim urlValue <> [] -> JS.trim keywordValue <> [] ->
  network (scanRequest (JS.trim urlValue) (JS.trim keywordValue))
  = Normal {| ok := true; json := Normal results |} ->
  onSubmit network urlValue keywordValue p
  = (Normal tt,
     let req := scanRequest (JS.trim urlValue) (JS.trim keywordValue) in
     let p1 := {| resultsDiv := [];
                  loading := classList_add (lit "active") (loading p);
                  submitBtn_disabled := true;
                  sent := sent p ++ [req] |} in
     match displayResults results (JS.trim keywordValue) p1 with
     | (Normal _, p2) => settled p req (resultsDiv p2)
     | (Throw e, _) => settled p req [Markup (errorMarkup (caughtText e))]
     end).
Proof.
  intros Hu Hk Hnet. enter_handler Hu Hk. rewrite Hnet.
  cbn [ok json negb]. unfold bind at 1. unfold ret at 1.
  unfold bind at 1. unfold lift at 1. cbn [json].
  match goal with |- context [displayResults ?r ?k ?q] =>
    pose proof (frames_displayResults r k q) as (Hl & _ & Hs);
    destruct (displayResults r k q) as [[[] | e] p2]
  end; cbn in Hl, Hs |- *; unfold settled; rewrite Hl, Hs; reflexivity.
Qed.

(** An empty array: the message, and nothing else. *)
Lemma displayResults_empty (keyword : jsstring) (p : page) :
  displayResults (VArray []) keyword p
  = (Normal tt,
     {| resultsDiv := [Markup noResultsMarkup];
        loading := loading p;
        submitBtn_disabled := submitBtn_disabled p;
        sent := sent p |}).
Proof. reflexivity. Qed.

(** A non-empty array of well-formed results: the count, then the items
    in the order of the array. *)
Lemma displayResults_scanResults (keyword : jsstring) (items : list val)
      (rs : list (jsstring * jsstring)) (p : page) :
  Forall2 isScanResult items rs ->
  rs <> [] ->
  displayResults (VArray items) keyword p
  = (Normal tt,
     {| resultsDiv :=
          resultsDiv p
          ++ renderedTitle (lit "Found " ++ JS.natToString (List.length rs)
                            ++ lit " match"
                            ++ (if Nat.ltb 1 (List.length rs) then lit "es" else []))
          :: map (renderedItem keyword) rs;
        loading := loading p;
        submitBtn_disabled := submitBtn_disabled p;
        sent := sent p |}).
Proof.
  intros Hrs Hne. pose proof (Forall2_length Hrs) as Hlen.
  unfold displayResults. unfold bind at 1. unfold lift at 1. cbn [getLength].
  destruct items as [|item items]; [destruct rs; [congruence | discriminate]|].
  cbn [strictEqualsZero Nat.eqb List.length].
  unfold bind, lift. cbn [getLength lengthToString lengthGreaterThanOne].
  unfold resultsDiv_appendChild. cbn [forEach].
  rewrite (forEachItem_scanResults keyword _ Hrs).
  cbn [resultsDiv loading submitBtn_disabled sent].
  rewrite <- Hlen. cbn [List.length]. rewrite <- app_assoc. reflexivity.
Qed.

End Handler.

(** ** Trimming *)

Lemma trimStart_nil_iff (s : jsstring) :
  JS.trimStart s = [] <-> forallb JS.isWhiteSpace s = true.
Proof.
  induction s as [|c s IH]; simpl; [tauto|].
  destruct (JS.isWhiteSpace c); simpl; [exact IH|].
  split; discriminate.
Qed.

Lemma trimStart_head (s : jsstring) (c : code_unit) (t : jsstring) :
  JS.trimStart s = c :: t -> JS.isWhiteSpace c = false.
Proof.
  induction s as [|x s IH]; simpl; [discriminate|].
  destruct (JS.isWhiteSpace x) eqn:Hx; [exact IH|].
  intros H; inversion H; subst; exact Hx.
Qed.

(** [trim] leaves nothing exactly when the string is white space only. *)
Lemma trim_nil_iff (s : jsstring) :
  JS.trim s = [] <-> forallb JS.isWhiteSpace s = true.
Proof.
  unfold JS.trim, JS.trimEnd. split.
  - intros H. apply trimStart_nil_iff.
    destruct (JS.trimStart s) as [|c t] eqn:Ht; [reflexivity|].
    apply (f_equal (@rev _)) in H. rewrite rev_involutive in H. simpl in H.
    apply trimStart_nil_iff in H.
    rewrite forallb_forall in H.
    assert (Hc : JS.isWhiteSpace c = true)
      by (apply H; apply in_or_app; right; left; reflexivity).
    rewrite (trimStart_head _ Ht) in Hc. discriminate.
  - intros H. apply trimStart_nil_iff in H. rewrite H. reflexivity.
Qed.

(** ** The submission cycle *)

Section Cycle.

Context {E : Engine}.

Variable network : request -> completion response.

Local Abbreviation val := (value number).

#[local] Hint Resolve frames_displayResults : frames.

Lemma tryCatchFinally_showError (body : M unit) (text : error -> jsstring)
      (q : page) :
  exists children,
    tryCatchFinally body (fun e => showError (text e)) (setLoading false) q
    = (Normal tt,
       {| resultsDiv := children;
          loading := classList_remove (lit "active") (loading (snd (body q)));
          submitBtn_disabled := false;
          sent := sent (snd (body q)) |}).
Proof.
  unfold tryCatchFinally.
  destruct (body q) as [[[] | e] q']; simpl; eexists; reflexivity.
Qed.

Lemma fetch_then_frames {A : Type} (req : request) (k : response -> M A) (q : page) :
  (forall r, frames (k r)) ->
  loading (snd (bind (fetch network req) k q)) = loading q
  /\ sent (snd (bind (fetch network req) k q)) = sent q ++ [req].
Proof.
  intros Hk. unfold bind, fetch.
  destruct (network req) as [r | e]; simpl; [|auto].
  match goal with |- context [k r ?q1] => destruct (Hk r q1) as (H1 & _ & H3) end.
  rewrite H1, H3. simpl. auto.
Qed.

(** Every submission that passes validation ends normally, with one more
    request sent, the [active] class removed and the button enabled. *)
Lemma onSubmit_settles (urlValue keywordValue : jsstring) (p : page) :
  JS.trim urlValue <> [] -> JS.trim keywordValue <> [] ->
  exists children,
    onSubmit network urlValue keywordValue p
    = (Normal tt,
       settled p (scanRequest (JS.trim urlValue) (JS.trim keywordValue)) children).
Proof.
  intros Hu Hk. unfold onSubmit.
  rewrite (isEmpty_false Hu), (isEmpty_false Hk). cbn [orb].
  unfold bind at 1; cbn [setLoading].
  unfold bind at 1; unfold clearResults at 1, resultsDiv_set_innerHTML at 1.
  cbn [parsed isEmpty resultsDiv loading submitBtn_disabled sent].
  match goal with
  | |- context [tryCatchFinally (bind (fetch network ?req) ?k) ?h ?f ?q] =>
      destruct (tryCatchFinally_showError (bind (fetch network req) k)
                  (fun error =>
                     if negb (isEmpty (message error)) then message error
                     else lit "Failed to scan documents. Please check the URL and try again.")
                  q) as [children Hc];
      destruct (@fetch_then_frames unit req k q) as [Hl Hs]
  end.
  - intros r. apply frames_bind.
    + destruct (negb (ok r)); [|auto with frames].
      repeat (apply frames_bind; [auto with frames | intros ?]).
      auto with frames.
    + intros _. apply frames_bind; auto with frames.
  - exists children. rewrite Hc, Hl, Hs. reflexivity.
Qed.

End Cycle.

(** ** Slices and occurrences *)

Lemma In_firstn_skipn (A : Type) (x : A) (n m : nat) (l : list A) :
  In x (firstn n (skipn m l)) -> In x l.
Proof.
  intros H. rewrite <- (firstn_skipn m l). apply in_or_app. right.
  rewrite <- (firstn_skipn n (skipn m l)). apply in_or_app. left. exact H.
Qed.

(** From a non-negative offset, [substring(i, i + k)] is the [k] code
    units that follow the first [i]. *)
Lemma substring_firstn_skipn (s : jsstring) (i k : Z) :
  (0 <= i)%Z -> (0 <= k)%Z ->
  JS.substring s i (Some (i + k)%Z)
  = firstn (Z.to_nat k) (skipn (Z.to_nat i) s).
Proof.
  intros Hi Hk. unfold JS.substring, JS.length.
  set (len := Z.of_nat (List.length s)).
  destruct (Z.le_gt_cases i len) as [Hle | Hgt].
  - replace (Z.min (Z.max i 0) len) with i by lia.
    set (b := Z.min (Z.max (i + k) 0) len).
    replace (Z.min i b) with i by (unfold b; lia).
    replace (Z.max i b) with b by (unfold b; lia).
    rewrite <- (firstn_all2 (n := Z.to_nat (len - i)) (skipn (Z.to_nat i) s)) at 2
      by (rewrite length_skipn; unfold len; lia).
    rewrite firstn_firstn. f_equal. unfold b. lia.
  - replace (Z.min (Z.max i 0) len) with len by lia.
    replace (Z.min (Z.max (i + k) 0) len) with len by lia.
    rewrite Z.min_id, Z.max_id, Z.sub_diag. simpl firstn.
    rewrite skipn_all2 by (unfold len in Hgt; lia).
    destruct (Z.to_nat k); reflexivity.
Qed.

Lemma occursAt_slice (p s : jsstring) (j : nat) :
  occursAt p s j
  <-> firstn (List.length p) (skipn j s) = p /\ j <= List.length s.
Proof.
  split.
  - intros (a & b & -> & <-). split; [|rewrite length_app; lia].
    rewrite skipn_app, Nat.sub_diag, skipn_all. simpl.
    rewrite firstn_app, Nat.sub_diag, firstn_all. simpl.
    apply app_nil_r.
  - intros [Hp Hj]. exists (firstn j s), (skipn (List.length p) (skipn j s)).
    split.
    + rewrite <- Hp at 1. rewrite firstn_skipn, firstn_skipn. reflexivity.
    + apply firstn_length_le. exact Hj.
Qed.

(** Where lower-casing works code unit by code unit, the slice cut out of
    the original at an occurrence found in the lower-cased text is the
    keyword up to case, and no earlier slice is. *)
Lemma unitwise_slice (lower : jsstring -> jsstring) (f : code_unit -> code_unit)
      (e k : jsstring) (i : nat) :
  (forall s, (forall c, In c s -> In c e \/ In c k) -> lower s = map f s) ->
  occursAt (lower k) (lower e) i ->
  (forall j, j < i -> ~ occursAt (lower k) (lower e) j) ->
  lower (firstn (List.length k) (skipn i e)) = lower k
  /\ forall j, j < i -> lower (firstn (List.length k) (skipn j e)) <> lower k.
Proof.
  intros Hf Hocc Hleast.
  assert (He : lower e = map f e) by (apply Hf; auto).
  assert (Hk : lower k = map f k) by (apply Hf; auto).
  assert (Hslice : forall j, lower (firstn (List.length k) (skipn j e))
                             = firstn (List.length (lower k)) (skipn j (lower e))).
  { intros j. rewrite Hf by (intros c Hc; left; exact (In_firstn_skipn _ _ _ _ Hc)).
    rewrite He, Hk, length_map, skipn_map, firstn_map. reflexivity. }
  split.
  - rewrite Hslice. apply occursAt_slice. exact Hocc.
  - intros j Hj Heq. apply (Hleast j Hj). apply occursAt_slice.
    split; [rewrite <- Hslice; exact Heq|].
    apply occursAt_bound in Hocc. lia.
Qed.

(** ** Well-formed strings and the text of markup *)

Lemma toWellFormed_fixed_upto (n : nat) (s : jsstring) :
  List.length s <= n ->
  (JS.isWellFormed s = true <-> JS.toWellFormed s = s).
Proof.
  revert s; induction n as [|n IH]; intros s Hn.
  - destruct s; [simpl; tauto | simpl in Hn; lia].
  - destruct s as [|c rest]; [simpl; tauto|].
    simpl in Hn. cbn [JS.isWellFormed JS.toWellFormed].
    destruct (JS.isLeadSurrogate c) eqn:Hlead.
    + destruct rest as [|d rest'].
      * split; [discriminate|]. intros H; inversion H; subst.
        vm_compute in Hlead. discriminate Hlead.
      * simpl in Hn. destruct (JS.isTrailSurrogate d) eqn:Htrail; cbn [andb].
        -- rewrite (IH rest') by lia.
           split; [intros -> ; reflexivity | intros H; inversion H; congruence].
        -- split; [discriminate|]. intros H; inversion H; subst.
           vm_compute in Hlead. discriminate Hlead.
    + destruct (JS.isTrailSurrogate c) eqn:Htrail; cbn [negb andb].
      * split; [discriminate|]. intros H; inversion H; subst.
        vm_compute in Htrail. discriminate Htrail.
      * rewrite (IH rest) by lia.
        split; [intros ->; reflexivity | intros H; inversion H; congruence].
Qed.

(** The [href] conversion leaves a string as it is exactly when the string
    is well formed. *)
Lemma toWellFormed_fixed_iff (s : jsstring) :
  JS.isWellFormed s = true <-> JS.toWellFormed s = s.
Proof. apply (toWellFormed_fixed_upto (n := List.length s)). lia. Qed.




(** * The specification, claim by claim *)

Section Claims.

Context {E : Engine}.

Variable network : request -> completion response.

Local Abbreviation val := (value number).

(** C4. When the URL or the keyword is empty once trimmed, that is when it
    is empty or white space only, the handler sends no request (the list
    of requests sent is unchanged and the network plays no part in the
    outcome) and the results container shows the validation message
    "Please fill in both URL and keyword fields.". *)
Theorem C4_validation_short_circuit (urlValue keywordValue : jsstring) (p : page) :
  JS.trim urlValue = [] \/ JS.trim keywordValue = [] ->
  fst (onSubmit network urlValue keywordValue p) = Normal tt
  /\ sent (snd (onSubmit network urlValue keywordValue p)) = sent p
  /\ resultsDiv (snd (onSubmit network urlValue keywordValue p))
     = [Markup (lit "<div class=" ++ dq ++ lit "error" ++ dq
                ++ lit ">Please fill in both URL and keyword fields.</div>")]
  /\ (forall network',
         onSubmit network' urlValue keywordValue p
         = onSubmit network urlValue keywordValue p).
Proof.
  intros H. rewrite (onSubmit_invalid network urlValue keywordValue p H).
  repeat split. intros network'. apply onSubmit_invalid. exact H.
Qed.

(** C5. Every submission that goes to the network, whatever the network
    answers and whatever rendering does, ends normally with the [active]
    class off the loading indicator and the submit button enabled, after
    exactly one request. *)
Theorem C5_returns_to_idle (urlValue keywordValue : jsstring) (p : page) :
  JS.trim urlValue <> [] -> JS.trim keywordValue <> [] ->
  fst (onSubmit network urlValue keywordValue p) = Normal tt
  /\ ~ In (lit "active") (loading (snd (onSubmit network urlValue keywordValue p)))
  /\ submitBtn_disabled (snd (onSubmit network urlValue keywordValue p)) = false
  /\ sent (snd (onSubmit network urlValue keywordValue p))
     = sent p ++ [scanRequest (JS.trim urlValue) (JS.trim keywordValue)].
Proof.
  intros Hu Hk.
  destruct (onSubmit_settles network urlValue keywordValue p Hu Hk) as [children ->].
  simpl. repeat split. apply classList_remove_not_in.
Qed.

(** C7. A successful response whose body is the empty array leaves the
    results container with the "no matches found" message as its only
    child: no count header, no result item. *)
Theorem C7_empty_array (urlValue keywordValue : jsstring) (p : page) :
  JS.trim urlValue <> [] -> JS.trim keywordValue <> [] ->
  network (scanRequest (JS.trim urlValue) (JS.trim keywordValue))
  = Normal {| ok := true; json := Normal (VArray []) |} ->
  resultsDiv (snd (onSubmit network urlValue keywordValue p))
  = [Markup (lit "<div class=" ++ dq ++ lit "no-results" ++ dq
             ++ lit ">No matches found for the keyword in the scanned documents.</div>")].
Proof.
  intros Hu Hk Hnet.
  rewrite (onSubmit_success network urlValue keywordValue p Hu Hk Hnet).
  reflexivity.
Qed.

(** C8. A successful response with N >= 1 well-formed results leaves the
    results container with the count header, whose text is "Found 1 match"
    when N = 1 and "Found N matches" when N > 1, followed by one item per
    result, in the order of the array. *)
Theorem C8_header_and_items (urlValue keywordValue : jsstring) (p : page)
        (items : list val) (rs : list (jsstring * jsstring)) :
  JS.trim urlValue <> [] -> JS.trim keywordValue <> [] ->
  network (scanRequest (JS.trim urlValue) (JS.trim keywordValue))
  = Normal {| ok := true; json := Normal (VArray items) |} ->
  Forall2 isScanResult items rs ->
  rs <> [] ->
  exists text,
    resultsDiv (snd (onSubmit network urlValue keywordValue p))
    = Element (lit "div") [(lit "className", lit "results-title")] [Text text]
      :: map (renderedItem (JS.trim keywordValue)) rs
    /\ (List.length rs = 1 -> text = lit "Found 1 match")
    /\ (List.length rs > 1 ->
        text = lit "Found " ++ JS.natToString (List.length rs) ++ lit " matches").
Proof.
  intros Hu Hk Hnet Hrs Hne.
  rewrite (onSubmit_success network urlValue keywordValue p Hu Hk Hnet).
  cbv zeta. rewrite (displayResults_scanResults _ _ Hrs Hne).
  cbn [snd settled resultsDiv app].
  eexists. split; [reflexivity|]. split.
  - intros ->. reflexivity.
  - intros HN. destruct (Nat.ltb_spec 1 (List.length rs)); [|lia].
    reflexivity.
Qed.

(** C3, as amended.  After a non-success response whose body parses to
    a value other than [null] that has no [detail], the error text shown
    is "An error occurred while scanning documents.".  When the body is
    [null], when the body cannot be parsed, and when the request fails at
    network level, the text shown is the message of the error raised (the
    [TypeError] of reading [detail] of [null], the parse error, the
    network error), and the generic fallback "Failed to scan documents.
    Please check the URL and try again." when that message is empty. *)
Theorem C3_error_text (urlValue keywordValue : jsstring) (p : page) :
  JS.trim urlValue <> [] -> JS.trim keywordValue <> [] ->
  (forall errorData,
      network (scanRequest (JS.trim urlValue) (JS.trim keywordValue))
      = Normal {| ok := false; json := Normal errorData |} ->
      errorData <> VNull -> errorData <> VUndefined ->
      (forall fields, errorData = VObject fields ->
                      lookup (lit "detail") fields = VUndefined) ->
      resultsDiv (snd (onSubmit network urlValue keywordValue p))
      = [Markup (errorMarkup (lit "An error occurred while scanning documents."))])
  /\ (forall e,
         network (scanRequest (JS.trim urlValue) (JS.trim keywordValue)) = Throw e
         \/ network (scanRequest (JS.trim urlValue) (JS.trim keywordValue))
            = Normal {| ok := false; json := Throw e |}
         \/ (network (scanRequest (JS.trim urlValue) (JS.trim keywordValue))
             = Normal {| ok := false; json := Normal VNull |}
             /\ e = nullishReadError VNull (lit "detail")) ->
         (message e <> [] ->
          resultsDiv (snd (onSubmit network urlValue keywordValue p))
          = [Markup (errorMarkup (message e))])
         /\ (message e = [] ->
             resultsDiv (snd (onSubmit network urlValue keywordValue p))
             = [Markup (errorMarkup
                          (lit "Failed to scan documents. Please check the URL and try again."))])).
Proof.
  intros Hu Hk. split.
  - intros errorData Hnet Hnull Hundef Hfields.
    assert (Hd : getField errorData (lit "detail") = Normal VUndefined).
    { destruct errorData; try reflexivity; try congruence.
      simpl. rewrite (Hfields fields eq_refl). reflexivity. }
    rewrite (onSubmit_failure network urlValue keywordValue p Hu Hk Hnet Hd).
    reflexivity.
  - intros e Hnet.
    assert (Hshown : resultsDiv (snd (onSubmit network urlValue keywordValue p))
                     = [Markup (errorMarkup (caughtText e))]).
    { destruct Hnet as [Hnet | [Hnet | [Hnet ->]]].
      - rewrite (onSubmit_rejected network urlValue keywordValue p Hu Hk Hnet).
        reflexivity.
      - rewrite (onSubmit_unparseable network urlValue keywordValue p Hu Hk Hnet).
        reflexivity.
      - unfold onSubmit.
        rewrite (isEmpty_false Hu), (isEmpty_false Hk). cbn [orb].
        unfold bind at 1; cbn [setLoading].
        unfold bind at 1; unfold clearResults at 1, resultsDiv_set_innerHTML at 1.
        unfold tryCatchFinally; unfold bind at 1; unfold fetch at 1.
        cbn [resultsDiv loading submitBtn_disabled sent].
        rewrite Hnet. reflexivity. }
    rewrite Hshown. unfold caughtText. split.
    + intros Hm. rewrite (isEmpty_false Hm). reflexivity.
    + intros ->. reflexivity.
Qed.

(** C6, as amended.  After a non-success response whose body parses to an
    object with a non-empty string [detail], the error text shown is that
    string: the container holds the error wrapper around its escaped form,
    which reads back as the string itself. *)
Theorem C6_detail_shown (urlValue keywordValue : jsstring) (p : page)
        (fields : list (jsstring * val)) (detail : jsstring) :
  JS.trim urlValue <> [] -> JS.trim keywordValue <> [] ->
  network (scanRequest (JS.trim urlValue) (JS.trim keywordValue))
  = Normal {| ok := false; json := Normal (VObject fields) |} ->
  lookup (lit "detail") fields = VString detail ->
  detail <> [] ->
  resultsDiv (snd (onSubmit network urlValue keywordValue p))
  = [Markup (lit "<div class=" ++ dq ++ lit "error" ++ dq ++ lit ">"
             ++ escapeHtml detail ++ lit "</div>")]
  /\ unescapeHtml (escapeHtml detail) = detail.
Proof.
  intros Hu Hk Hnet Hd Hne. split; [|apply unescapeHtml_escapeHtml].
  assert (Hget : getField (VObject fields) (lit "detail") = Normal (VString detail))
    by (simpl; rewrite Hd; reflexivity).
  rewrite (onSubmit_failure network urlValue keywordValue p Hu Hk Hnet Hget).
  cbn [ToBoolean]. rewrite (isEmpty_false Hne). cbn [negb ToString].
  unfold caughtText. cbn [message]. rewrite (isEmpty_false Hne). reflexivity.
Qed.

(** C10, as amended.  The link of every well-formed result has as its
    [href] the service's [document_url] as the [href] setter converts it:
    a string without an unpaired surrogate is kept verbatim, whatever it
    is, and nothing checks, escapes or filters it or its scheme; an
    unpaired surrogate is replaced by U+FFFD.  The [href] is the string
    itself exactly when the string is well formed.  The link's text is
    [document_url] itself, set as text and not as markup. *)
Theorem C10_href_verbatim (keyword : jsstring) (v : val)
        (r : jsstring * jsstring) (p : page) :
  isScanResult v r ->
  exists href excerptDiv,
    resultsDiv (snd (renderResult keyword v p))
    = resultsDiv p
      ++ [Element (lit "div") [(lit "className", lit "result-item")]
                  [Element (lit "a")
                           [(lit "href", href); (lit "target", lit "_blank");
                            (lit "className", lit "result-url")]
                           (if isEmpty (fst r) then [] else [Text (fst r)]);
                   excerptDiv]]
    /\ href = JS.toWellFormed (fst r)
    /\ (JS.isWellFormed (fst r) = true <-> href = fst r).
Proof.
  intros Hr. rewrite (renderResult_scanResult keyword p Hr).
  eexists _, _. split; [reflexivity|]. split; [reflexivity|].
  apply toWellFormed_fixed_iff.
Qed.



(** What lines 92 to 107 do.  The index is that of the first occurrence
    of the lower-cased keyword in the lower-cased excerpt.  When there is one, the
    excerpt is cut at that index and at that index plus the keyword's
    length, the three slices are taken from the excerpt as received, and
    the middle one alone is wrapped in the highlight marker.  Where
    lower-casing works code unit by code unit on the excerpt and the
    keyword (as on ASCII text), the wrapped slice is the keyword up to
    case, and no slice of that length starting earlier is.  When the
    lower-cased keyword does not occur in the lower-cased excerpt, the
    excerpt is set as text, unmodified and without a marker. *)
Lemma renderResult_highlight (keyword : jsstring) (v : val) (r : jsstring * jsstring)
        (p : page) :
  isScanResult v r ->
  let excerpt := snd r in
  let i := JS.indexOf (toLowerCase excerpt) (toLowerCase keyword) in
  exists link children,
    resultsDiv (snd (renderResult keyword v p))
    = resultsDiv p
      ++ [Element (lit "div") [(lit "className", lit "result-item")]
            [link;
             Element (lit "div") [(lit "className", lit "result-excerpt")] children]]
    /\ ((exists j, occursAt (toLowerCase keyword) (toLowerCase excerpt) j) ->
        (0 <= i)%Z
        /\ occursAt (toLowerCase keyword) (toLowerCase excerpt) (Z.to_nat i)
        /\ (forall j, j < Z.to_nat i ->
                      ~ occursAt (toLowerCase keyword) (toLowerCase excerpt) j)
        /\ children
           = [Markup
                (escapeHtml (JS.substring excerpt 0 (Some i))
                 ++ (lit "<span class=" ++ dq ++ lit "result-keyword" ++ dq ++ lit ">"
                     ++ escapeHtml
                          (JS.substring excerpt i (Some (i + JS.length keyword)%Z))
                     ++ lit "</span>")
                 ++ escapeHtml (JS.substring excerpt (i + JS.length keyword)%Z None))]
        /\ (forall f,
               (forall s, (forall c, In c s -> In c excerpt \/ In c keyword) ->
                          toLowerCase s = map f s) ->
               toLowerCase (JS.substring excerpt i (Some (i + JS.length keyword)%Z))
               = toLowerCase keyword
               /\ forall j, (0 <= j < i)%Z ->
                    toLowerCase
                      (JS.substring excerpt j (Some (j + JS.length keyword)%Z))
                    <> toLowerCase keyword))
    /\ ((forall j, ~ occursAt (toLowerCase keyword) (toLowerCase excerpt) j) ->
        children = if isEmpty excerpt then [] else [Text excerpt]).
Proof.
  intros Hr excerpt i. rewrite (renderResult_scanResult keyword p Hr).
  exists (renderedLink (fst r)), (renderedExcerpt keyword excerpt).
  split; [reflexivity|]. split.
  - intros [j Hj].
    destruct (indexOf_found Hj) as (n & Hn & Hocc & Hleast).
    fold i in Hn. rewrite Hn, Nat2Z.id.
    split; [lia|]. split; [exact Hocc|]. split; [exact Hleast|]. split.
    + unfold renderedExcerpt. fold i. rewrite Hn.
      destruct (Z.eqb_spec (Z.of_nat n) (-1)) as [Hneg | _]; [lia|].
      cbn [negb]. rewrite highlightMarkup_not_empty. reflexivity.
    + intros f Hf.
      destruct (unitwise_slice toLowerCase f excerpt keyword Hf Hocc Hleast)
        as [Hhere Hbefore].
      unfold JS.length. split.
      * rewrite substring_firstn_skipn by lia. rewrite !Nat2Z.id. exact Hhere.
      * intros j' Hj'. rewrite substring_firstn_skipn by lia.
        rewrite Nat2Z.id. apply Hbefore. lia.
  - intros Hno. apply indexOf_none in Hno. fold i in Hno.
    unfold renderedExcerpt. fold i. rewrite Hno. reflexivity.
Qed.

End Claims.

(** * The claims on concrete submissions *)

Ltac not_empty :=
  let H := fresh in intros H; vm_compute in H; discriminate H.

Ltac scan_results :=
  repeat constructor; eexists; repeat split; reflexivity.

(** On text without U+0130 the sample case mapping works code unit by
    code unit. *)
Lemma sample_lowerCase_unitwise (s : jsstring) :
  (forall c, In c s -> c <> 304%N) ->
  Sample.lowerCase s = map (fun c => hd c (Sample.lowerUnit c)) s.
Proof.
  induction s as [|c s IH]; intros Hs; [reflexivity|].
  simpl. rewrite <- IH by (intros x Hx; apply Hs; right; exact Hx).
  assert (Hc : c <> 304%N) by (apply Hs; left; reflexivity).
  unfold Sample.lowerUnit.
  destruct ((65 <=? c) && (c <=? 90))%N; [reflexivity|].
  destruct ((192 <=? c) && (c <=? 222) && negb (c =? 215))%N; [reflexivity|].
  destruct (N.eqb_spec c 304); [contradiction | reflexivity].
Qed.

Lemma C4_witness :
  (JS.trim (lit "   ") = [] \/ JS.trim (lit "fox") = [])
  /\ sent (snd (onSubmit (Sample.replies (Throw (Err (lit "Failed to fetch"))))
                         (lit "   ") (lit "fox") Sample.idle)) = []
  /\ resultsDiv (snd (onSubmit (Sample.replies (Throw (Err (lit "Failed to fetch"))))
                               (lit "   ") (lit "fox") Sample.idle))
     = [Markup (lit "<div class=" ++ dq ++ lit "error" ++ dq
                ++ lit ">Please fill in both URL and keyword fields.</div>")].
Proof.
  split; [left; reflexivity|].
  destruct (C4_validation_short_circuit
              (Sample.replies (Throw (Err (lit "Failed to fetch"))))
              (lit "   ") (lit "fox") Sample.idle (or_introl eq_refl))
    as (_ & Hsent & Hshown & _).
  split; [exact Hsent | exact Hshown].
Defined.

Lemma C5_witness :
  let net := Sample.replies (Sample.success (VArray [VNull])) in
  fst (onSubmit net (lit " http://x ") (lit "fox") Sample.idle) = Normal tt
  /\ ~ In (lit "active")
          (loading (snd (onSubmit net (lit " http://x ") (lit "fox") Sample.idle)))
  /\ submitBtn_disabled (snd (onSubmit net (lit " http://x ") (lit "fox") Sample.idle))
     = false
  /\ sent (snd (onSubmit net (lit " http://x ") (lit "fox") Sample.idle))
     = [scanRequest (lit "http://x") (lit "fox")].
Proof.
  intros net.
  apply (C5_returns_to_idle net (lit " http://x ") (lit "fox") Sample.idle);
    not_empty.
Defined.

Lemma C7_witness :
  resultsDiv
    (snd (onSubmit (Sample.replies (Sample.success (VArray [])))
                   (lit "http://x") (lit "fox") Sample.idle))
  = [Markup (lit "<div class=" ++ dq ++ lit "no-results" ++ dq
             ++ lit ">No matches found for the keyword in the scanned documents.</div>")].
Proof.
  apply C7_empty_array; [not_empty | not_empty | reflexivity].
Defined.

Lemma C8_witness :
  let rs := [(lit "http://a", lit "The quick Fox jumps");
             (lit "http://b", lit "no such word")] in
  let items := [Sample.scanResult (lit "http://a") (lit "The quick Fox jumps");
                Sample.scanResult (lit "http://b") (lit "no such word")] in
  let net := Sample.replies (Sample.success (VArray items)) in
  resultsDiv (snd (onSubmit net (lit "http://x") (lit "fox") Sample.idle))
  = Element (lit "div") [(lit "className", lit "results-title")]
            [Text (lit "Found 2 matches")]
    :: map (renderedItem (lit "fox")) rs.
Proof.
  intros rs items net.
  destruct (C8_header_and_items net (lit "http://x") (lit "fox") Sample.idle
              (items := items) (rs := rs))
    as (text & Hshown & _ & Hmany);
    [not_empty | not_empty | reflexivity | scan_results | discriminate |].
  rewrite Hshown, Hmany by (simpl; lia). reflexivity.
Defined.

Lemma C3_witness :
  let net := Sample.replies (Throw (Err (lit "Failed to fetch"))) in
  resultsDiv (snd (onSubmit net (lit "http://x") (lit "fox") Sample.idle))
  = [Markup (lit "<div class=" ++ dq ++ lit "error" ++ dq
             ++ lit ">Failed to fetch</div>")].
Proof.
  intros net.
  destruct (C3_error_text net (lit "http://x") (lit "fox") Sample.idle)
    as [_ Hraised]; [not_empty | not_empty |].
  destruct (Hraised (Err (lit "Failed to fetch")) (or_introl eq_refl))
    as [Hmessage _].
  rewrite Hmessage by discriminate. reflexivity.
Defined.

(** A non-success response with the body [{}]: the text shown is not the
    generic fallback.  Nor is it after a network failure whose error has a
    message. *)
Lemma C3_counterexample :
  resultsDiv
    (snd (onSubmit (Sample.replies (Sample.failure (VObject [])))
                   (lit "http://x") (lit "fox") Sample.idle))
  <> [Markup (errorMarkup
                (lit "Failed to scan documents. Please check the URL and try again."))]
  /\ resultsDiv
       (snd (onSubmit (Sample.replies (Throw (Err (lit "Failed to fetch"))))
                      (lit "http://x") (lit "fox") Sample.idle))
     <> [Markup (errorMarkup
                   (lit "Failed to scan documents. Please check the URL and try again."))].
Proof.
  split; intros H; vm_compute in H; discriminate H.
Qed.

Lemma C6_witness :
  let net := Sample.replies
               (Sample.failure (VObject [(lit "detail", VString (lit "bad url"))])) in
  resultsDiv (snd (onSubmit net (lit "http://x") (lit "fox") Sample.idle))
  = [Markup (lit "<div class=" ++ dq ++ lit "error" ++ dq ++ lit ">bad url</div>")].
Proof.
  intros net.
  destruct (C6_detail_shown net (lit "http://x") (lit "fox") Sample.idle
              (fields := [(lit "detail", VString (lit "bad url"))])
              (detail := lit "bad url"))
    as [Hshown _];
    [not_empty | not_empty | reflexivity | reflexivity | discriminate |].
  rewrite Hshown. reflexivity.
Defined.

(** A non-success response with the body [{"detail": ""}]: the text shown
    is not that empty string but "An error occurred while scanning
    documents.". *)
Lemma C6_counterexample :
  let net := Sample.replies (Sample.failure (VObject [(lit "detail", VString [])])) in
  resultsDiv (snd (onSubmit net (lit "http://x") (lit "fox") Sample.idle))
  = [Markup (errorMarkup (lit "An error occurred while scanning documents."))]
  /\ resultsDiv (snd (onSubmit net (lit "http://x") (lit "fox") Sample.idle))
     <> [Markup (errorMarkup [])].
Proof.
  intros net. split; [reflexivity|].
  intros H; vm_compute in H; discriminate H.
Qed.

Lemma C10_witness :
  exists excerptDiv,
    resultsDiv
      (snd (renderResult (lit "fox")
              (Sample.scanResult (lit "javascript:alert(1)") (lit "a fox"))
              Sample.idle))
    = [Element (lit "div") [(lit "className", lit "result-item")]
               [Element (lit "a")
                        [(lit "href", lit "javascript:alert(1)");
                         (lit "target", lit "_blank");
                         (lit "className", lit "result-url")]
                        [Text (lit "javascript:alert(1)")];
                excerptDiv]].
Proof.
  destruct (C10_href_verbatim (E := Sample.engine) (lit "fox")
              (v := Sample.scanResult (lit "javascript:alert(1)") (lit "a fox"))
              (r := (lit "javascript:alert(1)", lit "a fox")) Sample.idle)
    as (href & excerptDiv & Hshown & _ & Hkept);
    [eexists; repeat split; reflexivity|].
  exists excerptDiv. rewrite Hshown.
  rewrite (proj1 Hkept eq_refl). reflexivity.
Defined.

(** A [document_url] with the unpaired surrogate U+D800 in it: the [href]
    of the link holds U+FFFD in its place, and so is not the string the
    service sent. *)
Lemma C10_counterexample :
  let u := lit "http://a/" ++ [55296%N] ++ lit "x" in
  resultsDiv
    (snd (renderResult (lit "fox") (Sample.scanResult u (lit "a fox")) Sample.idle))
  = [Element (lit "div") [(lit "className", lit "result-item")]
             [Element (lit "a")
                      [(lit "href", lit "http://a/" ++ [65533%N] ++ lit "x");
                       (lit "target", lit "_blank");
                       (lit "className", lit "result-url")]
                      [Text u];
              Element (lit "div") [(lit "className", lit "result-excerpt")]
                      (renderedExcerpt (lit "fox") (lit "a fox"))]]
  /\ lit "http://a/" ++ [65533%N] ++ lit "x" <> u.
Proof.
  intros u. split; [reflexivity|].
  intros H. vm_compute in H. discriminate H.
Qed.


Lemma renderResult_highlight_example :
  exists link,
    resultsDiv
      (snd (renderResult (lit "fox")
              (Sample.scanResult (lit "http://a") (lit "The quick Fox jumps"))
              Sample.idle))
    = [Element (lit "div") [(lit "className", lit "result-item")]
         [link;
          Element (lit "div") [(lit "className", lit "result-excerpt")]
            [Markup (lit "The quick <span class=" ++ dq ++ lit "result-keyword" ++ dq
                     ++ lit ">Fox</span> jumps")]]]
    /\ toLowerCase (lit "Fox") = toLowerCase (lit "fox").
Proof.
  destruct (renderResult_highlight (E := Sample.engine) (lit "fox")
              (v := Sample.scanResult (lit "http://a") (lit "The quick Fox jumps"))
              (r := (lit "http://a", lit "The quick Fox jumps")) Sample.idle)
    as (link & children & Hshown & Hfound & _);
    [eexists; repeat split; reflexivity|].
  destruct Hfound as (_ & _ & _ & Hchildren & Hunitwise);
    [exists 10, (lit "the quick "), (lit " jumps"); split; reflexivity|].
  exists link. split.
  - rewrite Hshown, Hchildren. reflexivity.
  - apply (Hunitwise (fun c => hd c (Sample.lowerUnit c))).
    intros s Hs. apply sample_lowerCase_unitwise.
    intros c Hc.
    assert (Hall : forallb (fun x => negb (x =? 304)%N)
                           (lit "The quick Fox jumps" ++ lit "fox") = true)
      by reflexivity.
    rewrite forallb_forall in Hall.
    assert (Hin : In c (lit "The quick Fox jumps" ++ lit "fox"))
      by (apply in_or_app; exact (Hs c Hc)).
    specialize (Hall c Hin). intros ->. discriminate Hall.
Defined.

(** C1.  The first case-insensitive occurrence is not always the slice
    that is highlighted.  The excerpt U+0130 "stanbul fox" contains "fox"
    at offset 9; its lower case, one code unit longer, holds it at offset
    10; the offsets of the lower case are applied to the excerpt as
    received, and the slice wrapped in the marker is "ox", which is not
    the keyword in any case. *)
Theorem C1_wraps_wrong_slice :
  let excerpt := 304%N :: lit "stanbul fox" in
  let keyword := lit "fox" in
  occursAt (toLowerCase keyword) (toLowerCase excerpt) 10
  /\ occursAt keyword excerpt 9
  /\ JS.indexOf (toLowerCase excerpt) (toLowerCase keyword) = 10%Z
  /\ keywordText excerpt keyword 10 = lit "ox"
  /\ resultsDiv
       (snd (renderResult keyword (Sample.scanResult (lit "http://a") excerpt)
                          Sample.idle))
     = [Element (lit "div") [(lit "className", lit "result-item")]
          [Element (lit "a")
                   [(lit "href", lit "http://a"); (lit "target", lit "_blank");
                    (lit "className", lit "result-url")]
                   [Text (lit "http://a")];
           Element (lit "div") [(lit "className", lit "result-excerpt")]
             [Markup ((304%N :: lit "stanbul f")
                      ++ lit "<span class=" ++ dq ++ lit "result-keyword" ++ dq
                      ++ lit ">ox</span>")]]]
  /\ toLowerCase (lit "ox") <> toLowerCase keyword.
Proof.
  intros excerpt keyword. split; [|split; [|split; [|split; [|split]]]].
  - exists (105%N :: 775%N :: lit "stanbul "), []. split; reflexivity.
  - exists (304%N :: lit "stanbul "), []. split; reflexivity.
  - reflexivity.
  - reflexivity.
  - reflexivity.
  - intros H. vm_compute in H. discriminate H.
Qed.

(** * Further properties of the script *)

(** ** What [trim] keeps *)

Lemma forallb_rev (A : Type) (f : A -> bool) (l : list A) :
  forallb f (rev l) = forallb f l.
Proof.
  induction l as [|x l IH]; [reflexivity|].
  simpl. rewrite forallb_app, IH. simpl. rewrite andb_true_r. apply andb_comm.
Qed.

Lemma trimStart_decompose (s : jsstring) :
  exists a, s = a ++ JS.trimStart s /\ forallb JS.isWhiteSpace a = true.
Proof.
  induction s as [|c s (a & Ha & Hws)]; [exists []; auto|].
  simpl. destruct (JS.isWhiteSpace c) eqn:Hc.
  - exists (c :: a). simpl. rewrite Hc, Hws. split; [f_equal; exact Ha | reflexivity].
  - exists []. auto.
Qed.

Lemma trimStart_snoc (s : jsstring) (c : code_unit) :
  JS.isWhiteSpace c = false ->
  JS.trimStart (s ++ [c]) = JS.trimStart s ++ [c].
Proof.
  intros Hc. induction s as [|x s IH]; simpl.
  - rewrite Hc. reflexivity.
  - destruct (JS.isWhiteSpace x); [exact IH | reflexivity].
Qed.

Lemma trimStart_fixed (s : jsstring) (c : code_unit) (t : jsstring) :
  JS.trimStart s = c :: t -> JS.trimStart (c :: t) = c :: t.
Proof.
  intros H. simpl. rewrite (trimStart_head _ H). reflexivity.
Qed.

Lemma trimStart_idempotent (s : jsstring) :
  JS.trimStart (JS.trimStart s) = JS.trimStart s.
Proof.
  destruct (JS.trimStart s) as [|c t] eqn:H; [reflexivity|].
  exact (trimStart_fixed _ H).
Qed.

(** The trimmed string is a contiguous part of the input, with nothing
    but white space on either side, and it neither starts nor ends with
    white space. *)
Lemma trim_decompose (s : jsstring) :
  (exists a b, s = a ++ JS.trim s ++ b
               /\ forallb JS.isWhiteSpace a = true
               /\ forallb JS.isWhiteSpace b = true)
  /\ JS.trimStart (JS.trim s) = JS.trim s
  /\ JS.trimEnd (JS.trim s) = JS.trim s.
Proof.
  unfold JS.trim, JS.trimEnd.
  destruct (trimStart_decompose s) as (a & Ha & Hwa).
  destruct (trimStart_decompose (rev (JS.trimStart s))) as (b & Hb & Hwb).
  split; [|split].
  - exists a, (rev b). split; [|split; [exact Hwa | rewrite forallb_rev; exact Hwb]].
    rewrite <- rev_app_distr, <- Hb, rev_involutive. exact Ha.
  - destruct (JS.trimStart s) as [|c u] eqn:Hu; [reflexivity|].
    simpl rev. rewrite trimStart_snoc by exact (trimStart_head _ Hu).
    rewrite rev_app_distr. simpl. rewrite (trimStart_head _ Hu). reflexivity.
  - rewrite rev_involutive, trimStart_idempotent. reflexivity.
Qed.

(** ** Sending, and what is sent *)

Lemma classList_remove_absent (token : jsstring) (l : list jsstring) :
  ~ In token l -> classList_remove token l = l.
Proof.
  unfold classList_remove. induction l as [|c l IH]; intros Hnot; [reflexivity|].
  simpl. destruct (jsstring_eqb c token) eqn:Hc.
  - apply jsstring_eqb_eq in Hc. exfalso. apply Hnot. left. exact Hc.
  - simpl. f_equal. apply IH. intros H. apply Hnot. right. exact H.
Qed.

Section Sending.

Context {E : Engine}.

Variable network : request -> completion response.

(** X1. A request is sent exactly when both fields hold a code unit that
    is not white space, and then exactly one; otherwise nothing is sent
    and neither the loading indicator nor the submit button is touched. *)
Theorem X1_sends_iff_both_filled (urlValue keywordValue : jsstring) (p : page) :
  (forallb JS.isWhiteSpace urlValue = false
   /\ forallb JS.isWhiteSpace keywordValue = false
   /\ sent (snd (onSubmit network urlValue keywordValue p))
      = sent p ++ [scanRequest (JS.trim urlValue) (JS.trim keywordValue)])
  \/ ((forallb JS.isWhiteSpace urlValue = true
       \/ forallb JS.isWhiteSpace keywordValue = true)
      /\ sent (snd (onSubmit network urlValue keywordValue p)) = sent p
      /\ loading (snd (onSubmit network urlValue keywordValue p)) = loading p
      /\ submitBtn_disabled (snd (onSubmit network urlValue keywordValue p))
         = submitBtn_disabled p).
Proof.
  destruct (forallb JS.isWhiteSpace urlValue) eqn:Hu.
  - right. split; [auto|].
    rewrite (onSubmit_invalid network urlValue keywordValue p)
      by (left; apply trim_nil_iff; exact Hu).
    simpl. auto.
  - destruct (forallb JS.isWhiteSpace keywordValue) eqn:Hk.
    + right. split; [auto|].
      rewrite (onSubmit_invalid network urlValue keywordValue p)
        by (right; apply trim_nil_iff; exact Hk).
      simpl. auto.
    + left. split; [reflexivity|]. split; [reflexivity|].
      assert (Hu' : JS.trim urlValue <> [])
        by (intros H; apply trim_nil_iff in H; congruence).
      assert (Hk' : JS.trim keywordValue <> [])
        by (intros H; apply trim_nil_iff in H; congruence).
      destruct (onSubmit_settles network urlValue keywordValue p Hu' Hk')
        as [children ->].
      reflexivity.
Qed.

(** X2. The request of a submission is a POST to [/scan] with a JSON
    content type whose body holds the two values trimmed: each is a
    contiguous part of what was typed, with only white space cut off on
    either side, and trimming it again changes nothing. *)
Theorem X2_request_carries_trimmed_values (urlValue keywordValue : jsstring)
        (p : page) :
  JS.trim urlValue <> [] -> JS.trim keywordValue <> [] ->
  exists url keyword,
    sent (snd (onSubmit network urlValue keywordValue p))
    = sent p
      ++ [{| path := lit "/scan";
             method := lit "POST";
             headers := [(lit "Content-Type", lit "application/json")];
             body := [(lit "url", url); (lit "keyword", keyword)] |}]
    /\ (exists a b, urlValue = a ++ url ++ b
                    /\ forallb JS.isWhiteSpace a = true
                    /\ forallb JS.isWhiteSpace b = true)
    /\ (exists a b, keywordValue = a ++ keyword ++ b
                    /\ forallb JS.isWhiteSpace a = true
                    /\ forallb JS.isWhiteSpace b = true)
    /\ JS.trim url = url /\ JS.trim keyword = keyword.
Proof.
  intros Hu Hk.
  destruct (onSubmit_settles network urlValue keywordValue p Hu Hk)
    as [children ->].
  exists (JS.trim urlValue), (JS.trim keywordValue).
  destruct (trim_decompose urlValue) as (Hdu & Hsu & Heu).
  destruct (trim_decompose keywordValue) as (Hdk & Hsk & Hek).
  split; [reflexivity|]. split; [exact Hdu|]. split; [exact Hdk|].
  split; unfold JS.trim at 1.
  - rewrite Hsu. exact Heu.
  - rewrite Hsk. exact Hek.
Qed.

(** X3. A submission that goes to the network leaves the class list of
    the loading indicator as it was, less [active]: every other class is
    kept, in its place. *)
Theorem X3_loading_classes_restored (urlValue keywordValue : jsstring) (p : page) :
  JS.trim urlValue <> [] -> JS.trim keywordValue <> [] ->
  loading (snd (onSubmit network urlValue keywordValue p))
  = classList_remove (lit "active") (loading p)
  /\ (~ In (lit "active") (loading p) ->
      loading (snd (onSubmit network urlValue keywordValue p)) = loading p)
  /\ (forall c, c <> lit "active" ->
                (In c (loading (snd (onSubmit network urlValue keywordValue p)))
                 <-> In c (loading p))).
Proof.
  intros Hu Hk.
  destruct (onSubmit_settles network urlValue keywordValue p Hu Hk)
    as [children ->].
  cbn [snd settled loading].
  assert (Hloading : classList_remove (lit "active")
                       (classList_add (lit "active") (loading p))
                     = classList_remove (lit "active") (loading p)).
  { unfold classList_add, classList_remove.
    destruct (existsb _ _); [reflexivity|].
    rewrite filter_app.
    replace (filter (fun t => negb (jsstring_eqb t (lit "active"))) [lit "active"])
      with (@nil jsstring) by reflexivity.
    apply app_nil_r. }
  rewrite Hloading. split; [reflexivity|]. split.
  - apply classList_remove_absent.
  - intros c Hc. unfold classList_remove. rewrite filter_In. split.
    + intros [H _]. exact H.
    + intros H. split; [exact H|].
      destruct (jsstring_eqb c (lit "active")) eqn:Heq; [|reflexivity].
      apply jsstring_eqb_eq in Heq. contradiction.
Qed.

End Sending.

(** ** What a submission leaves in the results container *)

Create HintDb container.

Section Container.

Context {E : Engine}.

Variable network : request -> completion response.

Local Abbreviation val := (value number).

Lemma container_ret {A : Type} (a : A) : container_only (ret a).
Proof. intros p q H; simpl; auto. Qed.

Lemma container_throw {A : Type} (e : error) : container_only (@throw A e).
Proof. intros p q H; simpl; auto. Qed.

Lemma container_lift {A : Type} (c : completion A) : container_only (lift c).
Proof. intros p q H; simpl; auto. Qed.

Lemma container_bind {A B : Type} (m : M A) (k : A -> M B) :
  container_only m -> (forall a, container_only (k a)) ->
  container_only (bind m k).
Proof.
  intros Hm Hk p q Hpq. unfold bind. destruct (Hm p q Hpq) as [H1 H2].
  destruct (m p) as [[a | e] p'], (m q) as [[a' | e'] q'];
    simpl in H1, H2; try discriminate; inversion H1; subst.
  - apply Hk. exact H2.
  - simpl. auto.
Qed.

Lemma container_set_innerHTML (html : jsstring) :
  container_only (resultsDiv_set_innerHTML html).
Proof. intros p q H; simpl; auto. Qed.

Lemma container_appendChild (child : node) :
  container_only (resultsDiv_appendChild child).
Proof. intros p q H; simpl. rewrite H. auto. Qed.

Lemma container_setLoading (isLoading : bool) : container_only (setLoading isLoading).
Proof. intros p q H; destruct isLoading; simpl; auto. Qed.

Lemma container_fetch (req : request) : container_only (fetch network req).
Proof. intros p q H; simpl; auto. Qed.

Lemma container_tryCatchFinally (body : M unit) (handler : error -> M unit)
      (finalizer : M unit) :
  container_only body -> (forall e, container_only (handler e)) ->
  container_only finalizer ->
  container_only (tryCatchFinally body handler finalizer).
Proof.
  intros Hb Hh Hf p q Hpq. unfold tryCatchFinally.
  destruct (Hb p q Hpq) as [H1 H2].
  destruct (body p) as [[[] | e] p1], (body q) as [[[] | e'] q1];
    simpl in H1, H2; try discriminate.
  - destruct (Hf p1 q1 H2) as [H3 H4].
    destruct (finalizer p1) as [[[] | e3] p3], (finalizer q1) as [[[] | e3'] q3];
      simpl in H3, H4; try discriminate; simpl; auto.
  - inversion H1; subst e'.
    destruct (Hh e p1 q1 H2) as [H3 H4].
    destruct (handler e p1) as [r2 p2], (handler e q1) as [r2' q2].
    simpl in H3, H4. subst r2'.
    destruct (Hf p2 q2 H4) as [H5 H6].
    destruct (finalizer p2) as [[[] | e5] p5], (finalizer q2) as [[[] | e5'] q5];
      simpl in H5, H6; try discriminate; simpl; auto.
Qed.

#[local] Hint Resolve container_ret container_throw container_lift
  container_set_innerHTML container_appendChild container_setLoading
  container_fetch : container.

Lemma container_renderResult (keyword : jsstring) (result : val) :
  container_only (renderResult keyword result).
Proof.
  unfold renderResult.
  repeat (apply container_bind; [auto with container | intros ?]).
  auto with container.
Qed.

Lemma container_forEach (keyword : jsstring) (results : val) :
  container_only (forEach results (renderResult keyword)).
Proof.
  destruct results; simpl; auto with container.
  induction items as [|item items IH]; simpl; [auto with container|].
  apply container_bind; [apply container_renderResult | intros _; exact IH].
Qed.

Lemma container_displayResults (results : val) (keyword : jsstring) :
  container_only (displayResults results keyword).
Proof.
  unfold displayResults.
  apply container_bind; [auto with container | intros len].
  destruct (strictEqualsZero len); [auto with container|].
  repeat (apply container_bind; [auto with container | intros ?]).
  apply container_forEach.
Qed.

(** X4. What a submission leaves in the results container, and how it
    ends, does not depend on the page it starts from: earlier results or
    errors never show through.  Submitting the same values again against
    the same network therefore leaves the container as the first
    submission did. *)
Theorem X4_prior_content_replaced (urlValue keywordValue : jsstring) :
  (forall p q,
      fst (onSubmit network urlValue keywordValue p)
      = fst (onSubmit network urlValue keywordValue q)
      /\ resultsDiv (snd (onSubmit network urlValue keywordValue p))
         = resultsDiv (snd (onSubmit network urlValue keywordValue q)))
  /\ (forall p,
         resultsDiv
           (snd (onSubmit network urlValue keywordValue
                          (snd (onSubmit network urlValue keywordValue p))))
         = resultsDiv (snd (onSubmit network urlValue keywordValue p))).
Proof.
  assert (H : forall p q,
             fst (onSubmit network urlValue keywordValue p)
             = fst (onSubmit network urlValue keywordValue q)
             /\ resultsDiv (snd (onSubmit network urlValue keywordValue p))
                = resultsDiv (snd (onSubmit network urlValue keywordValue q))).
  { intros p q. unfold onSubmit.
    destruct (isEmpty (JS.trim urlValue) || isEmpty (JS.trim keywordValue)).
    - simpl. auto.
    - unfold bind at 1 3. cbn [setLoading].
      unfold bind at 1 2. unfold clearResults, resultsDiv_set_innerHTML.
      apply container_tryCatchFinally;
        [| intros e; apply container_set_innerHTML | auto with container
         | reflexivity].
      apply container_bind; [auto with container | intros r].
      apply container_bind.
      + destruct (negb (ok r)); [|auto with container].
        repeat (apply container_bind; [auto with container | intros ?]).
        auto with container.
      + intros _. apply container_bind; [auto with container | intros results].
        apply container_displayResults. }
  split; [exact H|]. intros p. apply H.
Qed.

End Container.

(** ** Every outcome of a response *)

Section Outcomes.

Context {E : Engine}.

Variable network : request -> completion response.

Local Abbreviation val := (value number).

Ltac into_try Hu Hk :=
  unfold onSubmit;
  rewrite (isEmpty_false Hu), (isEmpty_false Hk);
  cbn [orb];
  unfold bind at 1; cbn [setLoading];
  unfold bind at 1; unfold clearResults at 1, resultsDiv_set_innerHTML at 1;
  cbn [parsed isEmpty resultsDiv loading submitBtn_disabled sent];
  unfold tryCatchFinally; unfold bind at 1; unfold fetch at 1;
  cbn [resultsDiv loading submitBtn_disabled sent].

(** When a result is rendered without an exception, its excerpt was a
    string and one result item was appended. *)
Lemma renderResult_normal (keyword : jsstring) (v : val) (p p2 : page) :
  renderResult keyword v p = (Normal tt, p2) ->
  (exists s, getField v (lit "excerpt") = Normal (VString s))
  /\ exists n, isResultItem n /\ resultsDiv p2 = resultsDiv p ++ [n].
Proof.
  unfold renderResult, bind, lift. intros H.
  destruct (getField v (lit "document_url")) as [d | e]; [|discriminate].
  destruct (ToString d) as [href | e]; [|discriminate].
  destruct (toTextContent d) as [text | e]; [|discriminate].
  destruct (getField v (lit "excerpt")) as [x | e]; [|discriminate].
  destruct (stringReceiver x (lit "toLowerCase")) as [s | e] eqn:Hx; [|discriminate].
  assert (x = VString s) by (destruct x; simpl in Hx; congruence). subst x.
  split; [exists s; reflexivity|].
  unfold resultsDiv_appendChild in H. inversion H; subst; clear H.
  eexists. split; [|reflexivity].
  eexists _, _. reflexivity.
Qed.

(** A result whose excerpt is not a string cannot be rendered. *)
Lemma renderResult_throws (keyword : jsstring) (v : val) (p : page) :
  (forall s, getField v (lit "excerpt") <> Normal (VString s)) ->
  exists e p', renderResult keyword v p = (Throw e, p').
Proof.
  intros Hv. destruct (renderResult keyword v p) as [[[] | e] p'] eqn:H.
  - destruct (renderResult_normal _ _ _ H) as [[s Hs] _].
    destruct (Hv s Hs).
  - eauto.
Qed.

Lemma forEachItem_normal (keyword : jsstring) (items : list val) (p p2 : page) :
  forEachItem (renderResult keyword) items p = (Normal tt, p2) ->
  exists rendered,
    resultsDiv p2 = resultsDiv p ++ rendered
    /\ List.length rendered = List.length items
    /\ Forall isResultItem rendered.
Proof.
  revert p; induction items as [|item items IH]; intros p H.
  - inversion H; subst. exists []. rewrite app_nil_r. auto.
  - cbn [forEachItem] in H. unfold bind in H.
    destruct (renderResult keyword item p) as [[[] | e] p1] eqn:H1; [|discriminate].
    destruct (renderResult_normal _ _ _ H1) as [_ (n & Hn & Hp1)].
    destruct (IH p1 H) as (rendered & Hp2 & Hlen & Hall).
    exists (n :: rendered). rewrite Hp2, Hp1, <- app_assoc.
    split; [reflexivity|]. split; [simpl; lia | constructor; assumption].
Qed.

Lemma forEachItem_throws (keyword : jsstring) (items : list val) (p : page) :
  Exists (fun v => forall s, getField v (lit "excerpt") <> Normal (VString s)) items ->
  exists e p', forEachItem (renderResult keyword) items p = (Throw e, p').
Proof.
  intros H; revert p; induction H as [v items Hv | v items _ IH]; intros p;
    cbn [forEachItem]; unfold bind.
  - destruct (renderResult_throws keyword v p Hv) as (e & p' & ->). eauto.
  - destruct (renderResult keyword v p) as [[[] | e] p1]; [apply IH | eauto].
Qed.

(** The two ways [displayResults] ends without an exception. *)
Lemma displayResults_normal (results : val) (keyword : jsstring) (p p2 : page) :
  displayResults results keyword p = (Normal tt, p2) ->
  (resultsDiv p2 = [Markup noResultsMarkup]
   /\ exists len, getLength results = Normal len /\ strictEqualsZero len = true)
  \/ (exists items rendered,
         results = VArray items
         /\ items <> []
         /\ resultsDiv p2
            = resultsDiv p
              ++ renderedTitle (lit "Found " ++ JS.natToString (List.length items)
                                ++ lit " match"
                                ++ (if Nat.ltb 1 (List.length items)
                                    then lit "es" else []))
                 :: rendered
         /\ List.length rendered = List.length items
         /\ Forall isResultItem rendered).
Proof.
  unfold displayResults. unfold bind at 1. unfold lift at 1.
  destruct (getLength results) as [len | e] eqn:Hlen; [|discriminate].
  destruct (strictEqualsZero len) eqn:Hzero.
  - intros H. inversion H; subst. left. split; [reflexivity | eauto].
  - unfold bind, lift.
    destruct (lengthToString len) as [count | e] eqn:Hcount; [|discriminate].
    destruct (lengthGreaterThanOne len) as [plural | e] eqn:Hplural; [|discriminate].
    unfold resultsDiv_appendChild.
    destruct results; try (simpl; unfold throw; discriminate).
    cbn [forEach]. intros H.
    apply forEachItem_normal in H as (rendered & Hp2 & Hn & Hall).
    cbn [resultsDiv] in Hp2.
    simpl in Hlen. inversion Hlen; subst len.
    simpl in Hplural. inversion Hplural; subst plural.
    simpl in Hcount. inversion Hcount; subst count.
    right. exists items, rendered.
    split; [reflexivity|].
    split; [intros ->; discriminate|].
    split; [|auto].
    rewrite Hp2, <- app_assoc. reflexivity.
Qed.

(** What the handler shows for a given response, whatever it is. *)
Lemma onSubmit_response (urlValue keywordValue : jsstring) (p : page)
      (resp : response) :
  JS.trim urlValue <> [] -> JS.trim keywordValue <> [] ->
  network (scanRequest (JS.trim urlValue) (JS.trim keywordValue)) = Normal resp ->
  (forall e, json resp = Throw e ->
             resultsDiv (snd (onSubmit network urlValue keywordValue p))
             = [Markup (errorMarkup (caughtText e))])
  /\ (forall errorData e,
         ok resp = false -> json resp = Normal errorData ->
         getField errorData (lit "detail") = Throw e ->
         resultsDiv (snd (onSubmit network urlValue keywordValue p))
         = [Markup (errorMarkup (caughtText e))]).
Proof.
  intros Hu Hk Hnet. split.
  - intros e He. into_try Hu Hk. rewrite Hnet.
    destruct resp as [[] j]; simpl in He; subst j; reflexivity.
  - intros errorData e Hok Hj Hd. into_try Hu Hk. rewrite Hnet.
    destruct resp as [o j]; simpl in Hok, Hj; subst o j.
    cbn [ok json negb]. unfold bind, lift. rewrite Hd. reflexivity.
Qed.

(** X5. After a non-success response the results container holds one
    error box and nothing else, whatever the body is: no result is ever
    rendered from it.  When the body is an array, even one of well-formed
    results, the text is "An error occurred while scanning documents.". *)
Theorem X5_non_success_shows_one_error (urlValue keywordValue : jsstring)
        (p : page) (resp : response) :
  JS.trim urlValue <> [] -> JS.trim keywordValue <> [] ->
  network (scanRequest (JS.trim urlValue) (JS.trim keywordValue)) = Normal resp ->
  ok resp = false ->
  (exists text,
      resultsDiv (snd (onSubmit network urlValue keywordValue p))
      = [Markup (lit "<div class=" ++ dq ++ lit "error" ++ dq ++ lit ">"
                 ++ escapeHtml text ++ lit "</div>")])
  /\ (forall items,
         json resp = Normal (VArray items) ->
         resultsDiv (snd (onSubmit network urlValue keywordValue p))
         = [Markup (lit "<div class=" ++ dq ++ lit "error" ++ dq
                    ++ lit ">An error occurred while scanning documents.</div>")]).
Proof.
  intros Hu Hk Hnet Hok.
  destruct (onSubmit_response urlValue keywordValue p Hu Hk Hnet) as [Hparse Hnull].
  assert (Hresp : resp = {| ok := false; json := json resp |})
    by (destruct resp; simpl in Hok; subst; reflexivity).
  split.
  - destruct (json resp) as [errorData | e] eqn:Hj.
    + destruct (getField errorData (lit "detail")) as [detail | e] eqn:Hd.
      * rewrite Hresp in Hnet.
        rewrite (onSubmit_failure network urlValue keywordValue p Hu Hk Hnet Hd).
        eexists. reflexivity.
      * rewrite (Hnull errorData e Hok eq_refl Hd). eexists. reflexivity.
    + rewrite (Hparse e eq_refl). eexists. reflexivity.
  - intros items Hj. rewrite Hj in Hresp. rewrite Hresp in Hnet.
    rewrite (onSubmit_failure network urlValue keywordValue p
               (errorData := VArray items) (detail := VUndefined) Hu Hk Hnet eq_refl).
    reflexivity.
Qed.

(** X6. After a success response the results container holds one of
    three things and never a mixture: the "no matches" message alone; one
    error box alone; or, the body being an array, the count header
    followed by as many result items as the array has elements.  A
    rendering that fails part way leaves no item behind. *)
Theorem X6_success_all_or_nothing (urlValue keywordValue : jsstring)
        (p : page) (resp : response) :
  JS.trim urlValue <> [] -> JS.trim keywordValue <> [] ->
  network (scanRequest (JS.trim urlValue) (JS.trim keywordValue)) = Normal resp ->
  ok resp = true ->
  resultsDiv (snd (onSubmit network urlValue keywordValue p))
  = [Markup noResultsMarkup]
  \/ (exists text,
         resultsDiv (snd (onSubmit network urlValue keywordValue p))
         = [Markup (errorMarkup text)])
  \/ (exists items rendered,
         json resp = Normal (VArray items)
         /\ resultsDiv (snd (onSubmit network urlValue keywordValue p))
            = Element (lit "div") [(lit "className", lit "results-title")]
                      [Text (lit "Found " ++ JS.natToString (List.length items)
                             ++ lit " match"
                             ++ (if Nat.ltb 1 (List.length items)
                                 then lit "es" else []))]
              :: rendered
         /\ List.length rendered = List.length items
         /\ Forall isResultItem rendered).
Proof.
  intros Hu Hk Hnet Hok.
  destruct (onSubmit_response urlValue keywordValue p Hu Hk Hnet) as [Hparse _].
  destruct (json resp) as [results | e] eqn:Hj.
  - assert (Hresp : resp = {| ok := true; json := Normal results |})
      by (destruct resp; simpl in Hok, Hj; subst; reflexivity).
    rewrite Hresp in Hnet.
    rewrite (onSubmit_success network urlValue keywordValue p Hu Hk Hnet).
    cbv zeta.
    match goal with |- context [displayResults ?r ?k ?q] =>
      destruct (displayResults r k q) as [[[] | e] p2] eqn:Hd
    end.
    + apply displayResults_normal in Hd
        as [[Hnone _] | (items & rendered & -> & _ & Hshown & Hlen & Hall)].
      * left. exact Hnone.
      * right. right. exists items, rendered.
        split; [reflexivity|]. split; [exact Hshown|]. auto.
    + right. left. eexists. reflexivity.
  - right. left. rewrite (Hparse e eq_refl). eexists. reflexivity.
Qed.

(** X7. After a success response the "no matches" message is shown
    exactly when the [length] of the body is the number zero: for the
    empty array, but also for an empty string or an object whose [length]
    is zero. *)
Theorem X7_no_results_iff_zero_length (urlValue keywordValue : jsstring)
        (p : page) (results : val) :
  JS.trim urlValue <> [] -> JS.trim keywordValue <> [] ->
  network (scanRequest (JS.trim urlValue) (JS.trim keywordValue))
  = Normal {| ok := true; json := Normal results |} ->
  resultsDiv (snd (onSubmit network urlValue keywordValue p))
  = [Markup noResultsMarkup]
  <-> (results = VArray [] \/ results = VString []
       \/ exists fields n,
            results = VObject fields
            /\ lookup (lit "length") fields = VNumber n /\ isZero n = true).
Proof.
  intros Hu Hk Hnet.
  rewrite (onSubmit_success network urlValue keywordValue p Hu Hk Hnet).
  cbv zeta.
  assert (Hzero : (exists len, getLength results = Normal len
                               /\ strictEqualsZero len = true)
                  <-> (results = VArray [] \/ results = VString []
                       \/ exists fields n,
                            results = VObject fields
                            /\ lookup (lit "length") fields = VNumber n
                            /\ isZero n = true)).
  { split.
    - intros (len & Hlen & Hz).
      destruct results; simpl in Hlen; inversion Hlen; subst len; simpl in Hz;
        try discriminate.
      + right. left. destruct s; [reflexivity | discriminate].
      + left. destruct items; [reflexivity | discriminate].
      + right. right. destruct (lookup (lit "length") fields) eqn:Hl;
          try discriminate. eauto.
    - intros [-> | [-> | (fields & n & -> & Hl & Hn)]].
      + exists (Count 0). auto.
      + exists (Count 0). auto.
      + exists (Other (VNumber n)). simpl. rewrite Hl. auto. }
  rewrite <- Hzero.
  match goal with |- context [displayResults ?r ?k ?q] =>
    destruct (displayResults r k q) as [[[] | e] p2] eqn:Hd
  end.
  - pose proof Hd as Hd'.
    apply displayResults_normal in Hd'
      as [[Hnone Hlen] | (items & rendered & -> & Hne & Hshown & _)].
    + cbn [settled resultsDiv]. tauto.
    + cbn [settled resultsDiv]. rewrite Hshown. split; [discriminate|].
      intros (len & Hlen & Hz). simpl in Hlen. inversion Hlen; subst len.
      destruct items; [congruence | discriminate].
  - cbn [settled resultsDiv]. split.
    + intros H. vm_compute in H. discriminate H.
    + intros (len & Hlen & Hz). exfalso.
      unfold displayResults in Hd. unfold bind at 1 in Hd. unfold lift at 1 in Hd.
      rewrite Hlen, Hz in Hd. discriminate Hd.
Qed.

(** X8. One result whose excerpt is not a string hides all the others:
    after a success response whose array holds such an element, wherever
    it stands, the results container holds one error box and no item. *)
Theorem X8_one_malformed_result_hides_all (urlValue keywordValue : jsstring)
        (p : page) (items : list val) :
  JS.trim urlValue <> [] -> JS.trim keywordValue <> [] ->
  network (scanRequest (JS.trim urlValue) (JS.trim keywordValue))
  = Normal {| ok := true; json := Normal (VArray items) |} ->
  Exists (fun v => forall s, getField v (lit "excerpt") <> Normal (VString s)) items ->
  exists text,
    resultsDiv (snd (onSubmit network urlValue keywordValue p))
    = [Markup (lit "<div class=" ++ dq ++ lit "error" ++ dq ++ lit ">"
               ++ escapeHtml text ++ lit "</div>")].
Proof.
  intros Hu Hk Hnet Hbad.
  rewrite (onSubmit_success network urlValue keywordValue p Hu Hk Hnet).
  cbv zeta.
  match goal with |- context [displayResults ?r ?k ?q] =>
    destruct (displayResults r k q) as [[[] | e] p2] eqn:Hd
  end.
  - exfalso. pose proof Hd as Hd'.
    apply displayResults_normal in Hd'
      as [[_ (len & Hlen & Hz)] | (items' & rendered & Heq & _ & Hshown & _)].
    + simpl in Hlen. inversion Hlen; subst len.
      destruct items; [inversion Hbad | discriminate].
    + inversion Heq; subst items'. clear Heq.
      unfold displayResults in Hd. unfold bind at 1 in Hd. unfold lift at 1 in Hd.
      cbn [getLength] in Hd.
      destruct items as [|item items]; [inversion Hbad|].
      cbn [strictEqualsZero List.length Nat.eqb] in Hd.
      unfold bind, lift in Hd.
      cbn [getLength lengthToString lengthGreaterThanOne] in Hd.
      unfold resultsDiv_appendChild in Hd. cbn [forEach] in Hd.
      match type of Hd with forEachItem _ _ ?q = _ =>
        destruct (forEachItem_throws (JS.trim keywordValue) q Hbad)
          as (e & p' & Hthrow)
      end.
      rewrite Hthrow in Hd. discriminate Hd.
  - eexists. reflexivity.
Qed.

End Outcomes.

(** ** The keyword, the slices and the escaping *)

Section Highlighting.

Context {E : Engine}.

Local Abbreviation val := (value number).

Lemma bind_ext {A B : Type} (m : M A) (k1 k2 : A -> M B) (p : page) :
  (forall a q, k1 a q = k2 a q) -> bind m k1 p = bind m k2 p.
Proof.
  intros H. unfold bind. destruct (m p) as [[a | e] p']; [apply H | reflexivity].
Qed.

Lemma renderResult_keyword (k1 k2 : jsstring) (v : val) (p : page) :
  toLowerCase k1 = toLowerCase k2 ->
  List.length k1 = List.length k2 ->
  renderResult k1 v p = renderResult k2 v p.
Proof.
  intros Hlower Hlen. unfold renderResult.
  repeat (apply bind_ext; intros).
  rewrite Hlower. unfold highlightMarkup, keywordText, afterKeyword, JS.length.
  rewrite Hlen. reflexivity.
Qed.

(** X9. The rendering uses the keyword only through its lower case and
    its length: two keywords that agree on both, such as the same word in
    different cases, give the same results container. *)
Theorem X9_keyword_case_is_irrelevant (k1 k2 : jsstring) (results : val)
        (p : page) :
  toLowerCase k1 = toLowerCase k2 ->
  List.length k1 = List.length k2 ->
  displayResults results k1 p = displayResults results k2 p.
Proof.
  intros Hlower Hlen. unfold displayResults.
  apply bind_ext; intros len q.
  destruct (strictEqualsZero len); [reflexivity|].
  repeat (apply bind_ext; intros).
  destruct results; try reflexivity. cbn [forEach].
  match goal with |- forEachItem _ _ ?start = _ => generalize start end.
  induction items as [|item items IH]; intros st; [reflexivity|].
  cbn [forEachItem]. unfold bind.
  rewrite (renderResult_keyword k1 k2 item st Hlower Hlen).
  destruct (renderResult k2 item st) as [[[] | e] st']; [apply IH | reflexivity].
Qed.

(** X11. The highlighted slice is never longer than the keyword, and
    when lower-casing keeps the lengths of the excerpt and of the keyword
    it has exactly the keyword's length. *)
Theorem X11_highlight_length (excerpt keyword : jsstring) :
  JS.indexOf (toLowerCase excerpt) (toLowerCase keyword) <> (-1)%Z ->
  let keywordIndex := JS.indexOf (toLowerCase excerpt) (toLowerCase keyword) in
  List.length (keywordText excerpt keyword keywordIndex) <= List.length keyword
  /\ (List.length (toLowerCase excerpt) = List.length excerpt ->
      List.length (toLowerCase keyword) = List.length keyword ->
      List.length (keywordText excerpt keyword keywordIndex) = List.length keyword).
Proof.
  intros Hfound keywordIndex.
  destruct (indexOf_range (toLowerCase excerpt) (toLowerCase keyword))
    as [Hnone | Hrange]; [contradiction|].
  fold keywordIndex in Hrange. unfold JS.length in Hrange.
  unfold keywordText, JS.length.
  rewrite substring_firstn_skipn by lia.
  rewrite length_firstn, length_skipn, Nat2Z.id. split; [lia|].
  intros He Hk. rewrite He, Hk in Hrange. lia.
Qed.

End Highlighting.

Lemma escapeHtml_length (text : jsstring) :
  List.length text <= List.length (escapeHtml text).
Proof.
  rewrite escapeHtml_flat. induction text as [|c text IH]; [reflexivity|].
  simpl. rewrite length_app.
  destruct (escapeUnit_cases c)
    as [[_ ->] | [[_ ->] | [[_ ->] | [[_ ->] | (_ & _ & _ & _ & ->)]]]];
    simpl; lia.
Qed.

(** X10. [escapeHtml] works code unit by code unit: the escape of a
    concatenation is the concatenation of the escapes, and the result is
    never shorter than the text.  It leaves a text as it is exactly when
    the text holds none of [&], [<], [>] and the no-break space; quotes
    are not among the code units it rewrites. *)
Theorem X10_escapeHtml_unit_by_unit :
  (forall a b, escapeHtml (a ++ b) = escapeHtml a ++ escapeHtml b)
  /\ (forall text, List.length text <= List.length (escapeHtml text))
  /\ (forall text,
         escapeHtml text = text
         <-> forall c, In c text ->
                       c <> 38%N /\ c <> 160%N /\ c <> 60%N /\ c <> 62%N).
Proof.
  split; [exact escapeHtml_app|]. split; [exact escapeHtml_length|].
  intros text. split.
  - induction text as [|c text IH]; intros Heq x Hx; [destruct Hx|].
    change (c :: text) with ([c] ++ text) in Heq at 1.
    rewrite escapeHtml_app in Heq.
    pose proof (escapeHtml_length text) as Hlen.
    assert (Hc : escapeHtml [c] = escapeUnit c)
      by (rewrite escapeHtml_flat; simpl; apply app_nil_r).
    rewrite Hc in Heq.
    destruct (escapeUnit_cases c)
      as [[-> Hu] | [[-> Hu] | [[-> Hu] | [[-> Hu] | (H1 & H2 & H3 & H4 & Hu)]]]];
      rewrite Hu in Heq.
    + apply (f_equal (@List.length _)) in Heq.
      rewrite length_app in Heq. simpl in Heq. lia.
    + discriminate Heq.
    + discriminate Heq.
    + discriminate Heq.
    + simpl in Heq. inversion Heq as [Htext].
      destruct Hx as [<- | Hx]; [auto | exact (IH Htext x Hx)].
  - intros Hplain. rewrite escapeHtml_flat.
    induction text as [|c text IH]; [reflexivity|].
    simpl. rewrite IH by (intros x Hx; apply Hplain; right; exact Hx).
    destruct (Hplain c (or_introl eq_refl)) as (H1 & H2 & H3 & H4).
    destruct (escapeUnit_cases c)
      as [[-> _] | [[-> _] | [[-> _] | [[-> _] | (_ & _ & _ & _ & ->)]]]];
      (reflexivity || congruence).
Qed.

(** ** The further properties on concrete submissions *)

Lemma X2_witness :
  let net := Sample.replies (Sample.success (VArray [])) in
  exists url keyword,
    sent (snd (onSubmit net (lit "  http://x ") (lit " quick fox  ") Sample.idle))
    = sent Sample.idle
      ++ [{| path := lit "/scan";
             method := lit "POST";
             headers := [(lit "Content-Type", lit "application/json")];
             body := [(lit "url", url); (lit "keyword", keyword)] |}]
    /\ (exists a b, lit "  http://x " = a ++ url ++ b
                    /\ forallb JS.isWhiteSpace a = true
                    /\ forallb JS.isWhiteSpace b = true)
    /\ (exists a b, lit " quick fox  " = a ++ keyword ++ b
                    /\ forallb JS.isWhiteSpace a = true
                    /\ forallb JS.isWhiteSpace b = true)
    /\ JS.trim url = url /\ JS.trim keyword = keyword.
Proof.
  intros net.
  apply (X2_request_carries_trimmed_values net (lit "  http://x ")
           (lit " quick fox  ") Sample.idle); not_empty.
Defined.

Lemma X3_witness :
  let net := Sample.replies (Throw (Err (lit "Failed to fetch"))) in
  let p := {| resultsDiv := []; loading := [lit "spinner"; lit "large"];
              submitBtn_disabled := false; sent := [] |} in
  loading (snd (onSubmit net (lit "http://x") (lit "fox") p))
  = [lit "spinner"; lit "large"].
Proof.
  intros net p.
  destruct (X3_loading_classes_restored net (lit "http://x") (lit "fox") p)
    as (_ & Hsame & _); [not_empty | not_empty |].
  apply Hsame. intros [H | [H | []]]; discriminate H.
Defined.

Lemma X5_witness :
  let body := VArray [Sample.scanResult (lit "http://a") (lit "a fox")] in
  resultsDiv
    (snd (onSubmit (Sample.replies (Sample.failure body))
                   (lit "http://x") (lit "fox") Sample.idle))
  = [Markup (lit "<div class=" ++ dq ++ lit "error" ++ dq
             ++ lit ">An error occurred while scanning documents.</div>")].
Proof.
  intros body.
  destruct (X5_non_success_shows_one_error
              (Sample.replies (Sample.failure body))
              (lit "http://x") (lit "fox") Sample.idle
              (resp := @Build_response Sample.engine false (Normal body)))
    as [_ Harray]; [not_empty | not_empty | reflexivity | reflexivity |].
  exact (Harray _ eq_refl).
Defined.

Lemma X6_witness :
  let body := VArray [Sample.scanResult (lit "http://a") (lit "a fox"); VNull] in
  let resp := @Build_response Sample.engine true (Normal body) in
  let shown := resultsDiv
                 (snd (onSubmit (Sample.replies (Normal resp))
                                (lit "http://x") (lit "fox") Sample.idle)) in
  shown = [Markup noResultsMarkup]
  \/ (exists text, shown = [Markup (errorMarkup text)])
  \/ (exists items rendered,
         json resp = Normal (VArray items)
         /\ shown
            = Element (lit "div") [(lit "className", lit "results-title")]
                      [Text (lit "Found " ++ JS.natToString (List.length items)
                             ++ lit " match"
                             ++ (if Nat.ltb 1 (List.length items)
                                 then lit "es" else []))]
              :: rendered
         /\ List.length rendered = List.length items
         /\ Forall isResultItem rendered).
Proof.
  intros body resp shown.
  apply (X6_success_all_or_nothing (Sample.replies (Normal resp))
           (lit "http://x") (lit "fox") Sample.idle (resp := resp));
    [not_empty | not_empty | reflexivity | reflexivity].
Defined.

Lemma X7_witness :
  resultsDiv
    (snd (onSubmit (Sample.replies (Sample.success (VString [])))
                   (lit "http://x") (lit "fox") Sample.idle))
  = [Markup noResultsMarkup]
  /\ resultsDiv
       (snd (onSubmit (Sample.replies
                         (Sample.success (VObject [(lit "length", VNumber 0%Z)])))
                      (lit "http://x") (lit "fox") Sample.idle))
     = [Markup noResultsMarkup].
Proof.
  split.
  - apply (X7_no_results_iff_zero_length
             (Sample.replies (Sample.success (VString [])))
             (lit "http://x") (lit "fox") Sample.idle (results := VString []));
      [not_empty | not_empty | reflexivity |].
    right. left. reflexivity.
  - apply (X7_no_results_iff_zero_length
             (Sample.replies (Sample.success (VObject [(lit "length", VNumber 0%Z)])))
             (lit "http://x") (lit "fox") Sample.idle
             (results := VObject [(lit "length", VNumber 0%Z)]));
      [not_empty | not_empty | reflexivity |].
    right. right. exists [(lit "length", VNumber 0%Z)], 0%Z. auto.
Defined.

Lemma X8_witness :
  let items := [Sample.scanResult (lit "http://a") (lit "a fox");
                VObject [(lit "document_url", VString (lit "http://b"))]] in
  exists text,
    resultsDiv
      (snd (onSubmit (Sample.replies (Sample.success (VArray items)))
                     (lit "http://x") (lit "fox") Sample.idle))
    = [Markup (lit "<div class=" ++ dq ++ lit "error" ++ dq ++ lit ">"
               ++ escapeHtml text ++ lit "</div>")].
Proof.
  intros items.
  apply (X8_one_malformed_result_hides_all
           (Sample.replies (Sample.success (VArray items)))
           (lit "http://x") (lit "fox") Sample.idle (items := items));
    [not_empty | not_empty | reflexivity |].
  right. left. intros s H. discriminate H.
Defined.

Lemma X9_witness :
  let results := VArray [Sample.scanResult (lit "http://a")
                                           (lit "The quick Fox jumps")] in
  displayResults results (lit "FOX") Sample.idle
  = displayResults results (lit "fox") Sample.idle.
Proof.
  intros results.
  apply (X9_keyword_case_is_irrelevant (E := Sample.engine)); reflexivity.
Defined.

Lemma X11_witness :
  List.length
    (keywordText (lit "The quick Fox jumps") (lit "fox")
                 (JS.indexOf (toLowerCase (lit "The quick Fox jumps"))
                             (toLowerCase (lit "fox"))))
  = 3.
Proof.
  destruct (X11_highlight_length (E := Sample.engine)
              (lit "The quick Fox jumps") (lit "fox"))
    as [_ Hexact]; [vm_compute; discriminate|].
  apply Hexact; reflexivity.
Defined.
